(** * Furniture Management API: a shallow embedding of [main.py]

    The request handlers of [main.py] are modelled as functions on an
    explicit world state (the process-wide [db] handle together with the
    trace of driver calls issued so far).  Python exceptions are an error
    sum; the identifier the driver generates on insert and the clock reading
    used by [utcnow] are passed in as arguments. *)

From Stdlib Require Import QArith Ascii String List.
From stdpp Require Import gmap strings list fin_maps pretty.

Local Open Scope string_scope.
Local Open Scope list_scope.

(** ** Python strings *)

Module PyStr.



(** ASCII case folding of one character. *)
Definition lower (c : ascii) : ascii :=
  let n := nat_of_ascii c in
  if (65 <=? n)%nat && (n <=? 90)%nat then ascii_of_nat (n + 32) else c.

Definition lower_str (s : list ascii) : list ascii := List.map lower s.

Definition chars (s : string) : list ascii := list_ascii_of_string s.

(** [is_prefix p t]: [t] starts with [p], comparing case-folded
    characters. *)
Fixpoint is_prefix_ci (p t : list ascii) : bool :=
  match p, t with
  | [], _ => true
  | a :: p', c :: t' => bool_decide (lower a = lower c) && is_prefix_ci p' t'
  | _ :: _, [] => false
  end.

(** [contains_ci p t]: [p] occurs in [t] as a contiguous run of
    characters, ignoring ASCII case. *)
Fixpoint contains_ci (p t : list ascii) : bool :=
  is_prefix_ci p t ||
  match t with
  | [] => false
  | _ :: t' => contains_ci p t'
  end.

End PyStr.

(** ** bson.ObjectId *)

Module ObjectId.

Inductive hexdigit :=
| H0 | H1 | H2 | H3 | H4 | H5 | H6 | H7
| H8 | H9 | HA | HB | HC | HD | HE | HF.

#[global] Instance hexdigit_eq_dec : EqDecision hexdigit.
Proof. solve_decision. Defined.

(** An identifier is a sequence of bytes, kept here as its hexadecimal
    digits; the store's identifiers have twelve bytes. *)
Abbreviation t := (list hexdigit).

Definition wf (o : t) : Prop := length o = 24%nat.

Definition digit_char (h : hexdigit) : ascii :=
  match h with
  | H0 => "0" | H1 => "1" | H2 => "2" | H3 => "3"
  | H4 => "4" | H5 => "5" | H6 => "6" | H7 => "7"
  | H8 => "8" | H9 => "9" | HA => "a" | HB => "b"
  | HC => "c" | HD => "d" | HE => "e" | HF => "f"
  end%char.

Definition char_digit (c : ascii) : option hexdigit :=
  match c with
  | "0" => Some H0 | "1" => Some H1 | "2" => Some H2 | "3" => Some H3
  | "4" => Some H4 | "5" => Some H5 | "6" => Some H6 | "7" => Some H7
  | "8" => Some H8 | "9" => Some H9
  | "a" | "A" => Some HA | "b" | "B" => Some HB | "c" | "C" => Some HC
  | "d" | "D" => Some HD | "e" | "E" => Some HE | "f" | "F" => Some HF
  | _ => None
  end%char.

(** [str(oid)]: the lower-case hexadecimal rendering. *)
Fixpoint to_str (o : t) : string :=
  match o with
  | [] => EmptyString
  | h :: o' => String (digit_char h) (to_str o')
  end.

(** ASCII whitespace. *)
Definition is_space (c : ascii) : bool :=
  let n := nat_of_ascii c in
  ((n =? 32) || (9 <=? n) && (n <=? 13))%nat.

(** [bytes.fromhex(s)]: two hexadecimal digits per byte, whitespace
    between bytes being skipped. *)
Fixpoint fromhex (s : string) : option (list hexdigit) :=
  match s with
  | EmptyString => Some []
  | String c s' =>
      if is_space c then fromhex s'
      else match s' with
           | String c2 s'' =>
               match char_digit c, char_digit c2, fromhex s'' with
               | Some h1, Some h2, Some o => Some (h1 :: h2 :: o)
               | _, _, _ => None
               end
           | EmptyString => None
           end
  end.

(** [ObjectId(s)] for a [str] argument: [s] must have 24 characters and
    pass [bytes.fromhex]; anything else raises [InvalidId].  Only a text
    of 24 hexadecimal digits gives an identifier of twelve bytes. *)
Definition parse (s : string) : option (list hexdigit) :=
  if bool_decide (String.length s = 24%nat) then fromhex s else None.

(** The text of the [InvalidId] exception. *)
Definition invalid_msg (s : string) : string :=
  "'" ++ s ++
  "' is not a valid ObjectId, it must be a 12-byte input or a 24-character hex string".

End ObjectId.

(** ** The store's regular expressions

    The [$regex] operator hands the pattern text to the store's regular
    expression engine.  The syntax modelled here is: literal characters,
    [.], a backslash before a punctuation character, groups [( )],
    alternation [|] and one postfix [*], [+] or [?] per atom.  A pattern
    that leaves this syntax (classes, anchors, counted repetition,
    backslash letters, stacked quantifiers) or that is ill-formed in it is
    refused by [compile]. *)

Module Regex.

Inductive re :=
| Never
| Empty
| Any
| Lit (c : ascii)
| Seq (r1 r2 : re)
| Alt (r1 r2 : re)
| Star (r : re).

(** The role a character plays in a pattern. *)
Inductive token :=
| TChar (c : ascii)
| TDot
| TStar
| TPlus
| TQuest
| TBar
| TOpen
| TClose
| TBackslash
| TReserved.

Definition token_of (c : ascii) : token :=
  match c with
  | "." => TDot
  | "*" => TStar
  | "+" => TPlus
  | "?" => TQuest
  | "|" => TBar
  | "(" => TOpen
  | ")" => TClose
  | Ascii false false true true true false true false => TBackslash
  | "[" | "]" | "{" | "}" | "^" | "$" => TReserved
  | _ => TChar c
  end%char.

(** Characters with a meaning of their own in a pattern. *)
Definition meta (c : ascii) : bool :=
  match token_of c with
  | TChar _ => false
  | _ => true
  end.

Definition alnum (c : ascii) : bool :=
  let n := nat_of_ascii c in
  ((48 <=? n) && (n <=? 57) || (65 <=? n) && (n <=? 90)
   || (97 <=? n) && (n <=? 122))%nat.

Definition quantifier_ahead (s : list ascii) : bool :=
  match s with
  | c :: _ =>
      match token_of c with
      | TStar | TPlus | TQuest => true
      | _ => false
      end
  | [] => false
  end.

(** The optional quantifier after an atom [a]. *)
Definition parse_quant (a : re) (s : list ascii) : option (re * list ascii) :=
  match s with
  | c :: s' =>
      match token_of c with
      | TStar => if quantifier_ahead s' then None else Some (Star a, s')
      | TPlus => if quantifier_ahead s' then None else Some (Seq a (Star a), s')
      | TQuest => if quantifier_ahead s' then None else Some (Alt a Empty, s')
      | _ => Some (a, s)
      end
  | [] => Some (a, s)
  end.

Fixpoint parse_alt (fuel : nat) (s : list ascii) : option (re * list ascii) :=
  match fuel with
  | O => None
  | S f =>
      match parse_seq f s with
      | Some (r, c :: s') =>
          match token_of c with
          | TBar =>
              match parse_alt f s' with
              | Some (r', s'') => Some (Alt r r', s'')
              | None => None
              end
          | _ => Some (r, c :: s')
          end
      | other => other
      end
  end
with parse_seq (fuel : nat) (s : list ascii) : option (re * list ascii) :=
  match fuel with
  | O => None
  | S f =>
      let atom_then_rest :=
        match parse_atom f s with
        | Some (a, s1) =>
            match parse_quant a s1 with
            | Some (a', s2) =>
                match parse_seq f s2 with
                | Some (r, s3) => Some (Seq a' r, s3)
                | None => None
                end
            | None => None
            end
        | None => None
        end in
      match s with
      | [] => Some (Empty, s)
      | c :: _ =>
          match token_of c with
          | TBar | TClose => Some (Empty, s)
          | _ => atom_then_rest
          end
      end
  end
with parse_atom (fuel : nat) (s : list ascii) : option (re * list ascii) :=
  match fuel with
  | O => None
  | S f =>
      match s with
      | [] => None
      | c :: s' =>
          match token_of c with
          | TChar a => Some (Lit a, s')
          | TDot => Some (Any, s')
          | TOpen =>
              match parse_alt f s' with
              | Some (r, c' :: s'') =>
                  match token_of c' with
                  | TClose => Some (r, s'')
                  | _ => None
                  end
              | _ => None
              end
          | TBackslash =>
              match s' with
              | e :: s'' => if alnum e then None else Some (Lit e, s'')
              | [] => None
              end
          | _ => None
          end
      end
  end.

(** Every call consumes a character within three nested calls, so this
    much fuel is never exhausted. *)
Definition compile (pat : string) : option re :=
  let s := PyStr.chars pat in
  match parse_alt (3 * length s + 3) s with
  | Some (r, []) => Some r
  | _ => None
  end.

Section Matching.

(** [ci]: the [i] option, comparison up to case. *)
Variable ci : bool.

Definition same (a c : ascii) : bool :=
  if ci then bool_decide (PyStr.lower a = PyStr.lower c)
  else bool_decide (a = c).

Definition newline : ascii := ascii_of_nat 10.

Fixpoint nullable (r : re) : bool :=
  match r with
  | Never | Any | Lit _ => false
  | Empty | Star _ => true
  | Seq r1 r2 => nullable r1 && nullable r2
  | Alt r1 r2 => nullable r1 || nullable r2
  end.

(** What is left of [r] once the character [c] has been read. *)
Fixpoint deriv (c : ascii) (r : re) : re :=
  match r with
  | Never | Empty => Never
  | Any => if bool_decide (c = newline) then Never else Empty
  | Lit a => if same a c then Empty else Never
  | Seq r1 r2 =>
      Alt (Seq (deriv c r1) r2) (if nullable r1 then deriv c r2 else Never)
  | Alt r1 r2 => Alt (deriv c r1) (deriv c r2)
  | Star r1 => Seq (deriv c r1) (Star r1)
  end.

(** Some prefix of [t] is matched by [r]. *)
Fixpoint prefix_match (r : re) (t : list ascii) : bool :=
  nullable r ||
  match t with
  | [] => false
  | c :: t' => prefix_match (deriv c r) t'
  end.

(** Unanchored search: [r] matches somewhere inside [t]. *)
Fixpoint search (r : re) (t : list ascii) : bool :=
  prefix_match r t ||
  match t with
  | [] => false
  | _ :: t' => search r t'
  end.

End Matching.

Fixpoint has_option (o : ascii) (opts : string) : bool :=
  match opts with
  | EmptyString => false
  | String c opts' => bool_decide (c = o) || has_option o opts'
  end.

(** [{"$regex": pat, "$options": opts}] applied to the string [subject];
    [None] when the engine refuses the pattern. *)
Definition regex_match (pat opts subject : string) : option bool :=
  match compile pat with
  | Some r => Some (search (has_option "i" opts) r (PyStr.chars subject))
  | None => None
  end.

(** The pattern a run of ordinary characters stands for. *)
Fixpoint lits (s : list ascii) : re :=
  match s with
  | [] => Empty
  | c :: s' => Seq (Lit c) (lits s')
  end.

(** No character of [s] has a meaning of its own in a pattern. *)
Definition plain (s : list ascii) : bool := forallb (fun c => negb (meta c)) s.

End Regex.

(** ** Documents *)

Module Bson.

#[global] Instance Q_eq_dec : EqDecision Q.
Proof. solve_decision. Defined.

(** The values a furniture document holds.  A Python [float] is carried
    as a rational; a [datetime] as a count of microseconds. *)
Inductive value :=
| VNull
| VStr (s : string)
| VInt (z : Z)
| VDouble (q : Q)
| VOid (o : ObjectId.t)
| VDate (t : Z).

#[global] Instance value_eq_dec : EqDecision value.
Proof. solve_decision. Defined.

(** A stored document: the [_id] every document of the store carries, and
    its other fields. *)
Record document := {
  _id : ObjectId.t;
  fields : gmap string value
}.

(** [d.get(k)] *)
Definition get (d : document) (k : string) : option value :=
  if bool_decide (k = "_id") then Some (VOid (_id d)) else fields d !! k.

(** One entry of a filter dictionary: a plain value stands for equality,
    [{"$regex": pat, "$options": opts}] for a pattern search. *)
Inductive cond :=
| Equals (v : value)
| RegexOp (pat opts : string).

Definition cond_ok (c : cond) : bool :=
  match c with
  | Equals _ => true
  | RegexOp pat _ => bool_decide (is_Some (Regex.compile pat))
  end.

Definition cond_holds (d : document) (k : string) (c : cond) : bool :=
  match c with
  | Equals v => bool_decide (get d k = Some v)
  | RegexOp pat opts =>
      match get d k with
      | Some (VStr s) => bool_decide (Regex.regex_match pat opts s = Some true)
      | _ => false
      end
  end.

(** The entries of a filter are combined with logical AND. *)
Definition matches (f : gmap string cond) (d : document) : bool :=
  bool_decide (map_Forall (fun k c => cond_holds d k c = true) f).

Definition filter_ok (f : gmap string cond) : bool :=
  bool_decide (map_Forall (fun _ c => cond_ok c = true) f).

End Bson.

Export Bson.

(** ** Exceptions and HTTP responses *)

Inductive exn :=
| HTTPException (status_code : Z) (detail : string)
| Exception (msg : string).

(** [str(e)] *)
Definition exn_str (e : exn) : string :=
  match e with
  | HTTPException code detail => pretty code ++ ": " ++ detail
  | Exception msg => msg
  end.

(** Outcome of running Python code: a raised exception or a value. *)
Definition result (A : Type) : Type := exn + A.

Definition raise {A} (e : exn) : result A := inl e.
Definition ret {A} (a : A) : result A := inr a.

Inductive body (A : Type) :=
| Payload (a : A)
| Detail (msg : string)
| PlainText (msg : string).
Arguments Payload {A} a.
Arguments Detail {A} msg.
Arguments PlainText {A} msg.

Record response (A : Type) := {
  status : Z;
  content : body A
}.
Arguments status {A} r.
Arguments content {A} r.

(** What the framework sends for a handler's outcome: the returned value
    with status 200, [{"detail": ...}] with the status of a raised
    [HTTPException], and a bare 500 for any other exception. *)
Definition serve {A} (r : result A) : response A :=
  match r with
  | inr a => {| status := 200; content := Payload a |}
  | inl (HTTPException code d) => {| status := code; content := Detail d |}
  | inl (Exception _) => {| status := 500; content := PlainText "Internal Server Error" |}
  end.

(** ** The driver: a database handle and its operations *)

Module Pymongo.

Record Database := {
  name : option string;
  (** When set, the server cannot be reached and every operation raises
      an exception with this text. *)
  fault : option string;
  collections : gmap string (list document)
}.

Inductive call :=
| InsertOne (coll : string)
| Find (coll : string)
| FindOneAndUpdate (coll : string)
| DeleteOne (coll : string)
| ListCollectionNames.

(** [db[coll]]: a collection never written to is empty. *)
Definition collection (d : Database) (coll : string) : list document :=
  default [] (collections d !! coll).

Definition with_collection (d : Database) (coll : string)
    (docs : list document) : Database :=
  {| name := name d; fault := fault d;
     collections := <[coll := docs]> (collections d) |}.

Definition has_id (o : ObjectId.t) (d : document) : bool :=
  bool_decide (_id d = o).

(** [insert_one]: the document is stored under the identifier [new_id]
    the driver generated for it; the unique index on [_id] refuses a
    duplicate. *)
Definition insert_one (d : Database) (coll : string)
    (flds : gmap string value) (new_id : ObjectId.t)
    : result ObjectId.t * Database :=
  match fault d with
  | Some msg => (raise (Exception msg), d)
  | None =>
      let docs := collection d coll in
      if existsb (has_id new_id) docs
      then (raise (Exception "E11000 duplicate key error"), d)
      else (ret new_id,
            with_collection d coll (docs ++ [{| _id := new_id; fields := flds |}]))
  end.

(** A cursor limit: [limit(0)] is no limit. *)
Definition capped (limit : option nat) (found : list document) : list document :=
  match limit with
  | Some (S n) => firstn (S n) found
  | _ => found
  end.

(** [list(find(filter).limit(n))]: the matching documents in the order
    of the collection. *)
Definition find (d : Database) (coll : string) (f : gmap string cond)
    (limit : option nat) : result (list document) :=
  match fault d with
  | Some msg => raise (Exception msg)
  | None =>
      if filter_ok f
      then ret (capped limit (List.filter (matches f) (collection d coll)))
      else raise (Exception "Regular expression is invalid")
  end.

(** [$set]: the given fields overwrite or extend those of the
    document. *)
Definition set_fields (upd : gmap string value) (doc : document) : document :=
  {| _id := _id doc; fields := upd ∪ fields doc |}.

(** Apply [g] to the first document matching [f]. *)
Fixpoint update_first (f : gmap string cond) (g : document -> document)
    (docs : list document) : option (document * list document) :=
  match docs with
  | [] => None
  | doc :: rest =>
      if matches f doc then Some (g doc, g doc :: rest)
      else match update_first f g rest with
           | Some (hit, rest') => Some (hit, doc :: rest')
           | None => None
           end
  end.

(** [find_one_and_update(filter, {"$set": upd}, return_document=True)]:
    the updated document, or [None] when nothing matched (no upsert). *)
Definition find_one_and_update (d : Database) (coll : string)
    (f : gmap string cond) (upd : gmap string value)
    : result (option document) * Database :=
  match fault d with
  | Some msg => (raise (Exception msg), d)
  | None =>
      if filter_ok f then
        match update_first f (set_fields upd) (collection d coll) with
        | Some (hit, docs') => (ret (Some hit), with_collection d coll docs')
        | None => (ret None, d)
        end
      else (raise (Exception "Regular expression is invalid"), d)
  end.

(** Remove the first document matching [f]. *)
Fixpoint remove_first (f : gmap string cond) (docs : list document)
    : option (list document) :=
  match docs with
  | [] => None
  | doc :: rest =>
      if matches f doc then Some rest
      else match remove_first f rest with
           | Some rest' => Some (doc :: rest')
           | None => None
           end
  end.

(** [delete_one(filter).deleted_count] *)
Definition delete_one (d : Database) (coll : string) (f : gmap string cond)
    : result Z * Database :=
  match fault d with
  | Some msg => (raise (Exception msg), d)
  | None =>
      if filter_ok f then
        match remove_first f (collection d coll) with
        | Some docs' => (ret 1%Z, with_collection d coll docs')
        | None => (ret 0%Z, d)
        end
      else (raise (Exception "Regular expression is invalid"), d)
  end.


End Pymongo.

(** ** The process: global state and the monad of handler code *)

Record world := {
  (** The module-level [db] handle; [None] when no connection was
      established at start-up. *)
  db : option Pymongo.Database;
  (** The process environment read by [os.getenv]. *)
  environ : gmap string string;
  (** The driver operations issued so far, oldest first. *)
  trace : list Pymongo.call
}.

Definition M (A : Type) : Type := world -> result A * world.

Definition mret {A} (a : A) : M A := fun w => (ret a, w).

Definition mraise {A} (e : exn) : M A := fun w => (raise e, w).

Definition mbind {A B} (m : M A) (k : A -> M B) : M B :=
  fun w =>
    match m w with
    | (inr a, w') => k a w'
    | (inl e, w') => (inl e, w')
    end.

Notation "x <- m ;; k" := (mbind m (fun x => k))
  (at level 100, m at next level, right associativity).

(** [try: m except ... as e: h e] *)
Definition try_except {A} (m : M A) (h : exn -> M A) : M A :=
  fun w =>
    match m w with
    | (inl e, w') => h e w'
    | r => r
    end.

Definition lift {A} (r : result A) : M A := fun w => (r, w).

Definition get_db : M (option Pymongo.Database) := fun w => (ret (db w), w).

Definition getenv (k : string) : M (option string) :=
  fun w => (ret (environ w !! k), w).

(** A driver operation on the handle: it is recorded in the trace and the
    handle takes the state the operation leaves. *)
Definition driver {A} (c : Pymongo.call)
    (op : Pymongo.Database -> result A * Pymongo.Database)
    (d : Pymongo.Database) : M A :=
  fun w =>
    let '(r, d') := op d in
    (r, {| db := Some d'; environ := environ w; trace := trace w ++ [c] |}).

(** [ObjectId(s)] *)
Definition ObjectId_init (s : string) : result ObjectId.t :=
  match ObjectId.parse s with
  | Some o => ret o
  | None => raise (Exception (ObjectId.invalid_msg s))
  end.

(** ** Furniture API models *)

Record FurnitureIn := {
  name : string;
  category : string;
  material : option string;
  price : Q;
  stock : Z;
  width_cm : option Q;
  depth_cm : option Q;
  height_cm : option Q;
  image_url : option string
}.

(** [class FurnitureOut(FurnitureIn)]: the inherited fields and [id]. *)
Record FurnitureOut := {
  record : FurnitureIn;
  id : string
}.

(** Field validation.  A [str] field takes a string; a [float] field a
    double or an integer; an [int] field an integer or a double without
    fractional part; an [Optional] field also takes [None].  Strings are
    not converted to numbers here. *)
Definition as_str (v : value) : option string :=
  match v with
  | VStr s => Some s
  | _ => None
  end.

Definition as_float (v : value) : option Q :=
  match v with
  | VDouble q => Some q
  | VInt z => Some (inject_Z z)
  | _ => None
  end.

Definition as_int (v : value) : option Z :=
  match v with
  | VInt z => Some z
  | VDouble q =>
      if bool_decide (Qden (Qred q) = 1%positive) then Some (Qnum (Qred q))
      else None
  | _ => None
  end.

Definition optional {A} (f : value -> option A) (v : value) : option (option A) :=
  match v with
  | VNull => Some None
  | _ => Some <$> f v
  end.

Definition validation_error (model : string) : exn :=
  Exception ("validation error for " ++ model).

(** [FurnitureIn(name=..., ...)] with every keyword supplied. *)
Definition FurnitureIn_fields
    (v_name v_category v_material v_price v_stock
     v_width v_depth v_height v_image : value) : option FurnitureIn :=
  match as_str v_name, as_str v_category, optional as_str v_material,
        as_float v_price, as_int v_stock, optional as_float v_width,
        optional as_float v_depth, optional as_float v_height,
        optional as_str v_image with
  | Some n, Some c, Some m, Some p, Some s, Some w, Some d, Some h, Some i =>
      Some {| name := n; category := c; material := m; price := p;
              stock := s; width_cm := w; depth_cm := d; height_cm := h;
              image_url := i |}
  | _, _, _, _, _, _, _, _, _ => None
  end.

(** [FurnitureOut(id=..., name=..., ...)] *)
Definition FurnitureOut_init
    (v_id v_name v_category v_material v_price v_stock
     v_width v_depth v_height v_image : value) : result FurnitureOut :=
  match as_str v_id,
        FurnitureIn_fields v_name v_category v_material v_price v_stock
          v_width v_depth v_height v_image with
  | Some i, Some r => ret {| record := r; id := i |}
  | _, _ => raise (validation_error "FurnitureOut")
  end.

Definition dump_opt {A} (f : A -> value) (o : option A) : value :=
  match o with
  | Some a => f a
  | None => VNull
  end.

(** [item.model_dump()] *)
Definition model_dump (item : FurnitureIn) : gmap string value :=
  <["name" := VStr (name item)]>
  (<["category" := VStr (category item)]>
  (<["material" := dump_opt VStr (material item)]>
  (<["price" := VDouble (price item)]>
  (<["stock" := VInt (stock item)]>
  (<["width_cm" := dump_opt VDouble (width_cm item)]>
  (<["depth_cm" := dump_opt VDouble (depth_cm item)]>
  (<["height_cm" := dump_opt VDouble (height_cm item)]>
  (<["image_url" := dump_opt VStr (image_url item)]> ∅)))))))).

(** A request body that passed the framework's validation against
    [FurnitureIn]: the required fields are there and well typed, the
    others may be left out. *)
Record payload := {
  p_name : string;
  p_category : string;
  p_material : option string;
  p_price : Q;
  p_stock : option Z;
  p_width_cm : option Q;
  p_depth_cm : option Q;
  p_height_cm : option Q;
  p_image_url : option string
}.

(** The [FurnitureIn] the framework builds from the body: [stock: int = 0],
    the [Optional] fields default to [None]. *)
Definition parse_body (p : payload) : FurnitureIn :=
  {| name := p_name p; category := p_category p; material := p_material p;
     price := p_price p; stock := default 0%Z (p_stock p);
     width_cm := p_width_cm p; depth_cm := p_depth_cm p;
     height_cm := p_height_cm p; image_url := p_image_url p |}.

(** ** schemas.py *)

Module Schemas.

(** Modelled from the spec: the module [schemas] with the class
    [Furniture] is not part of the sources.  The record schema has the
    fields a payload supplies (name, category, material, price, stock,
    the three dimensions, image_url) with their types, the required and
    optional split and the default of [stock]; it enforces no bound on
    the numbers.  The constructor validates its keyword arguments
    accordingly. *)
Definition Furniture (kwargs : gmap string value) : result FurnitureIn :=
  let arg k := default VNull (kwargs !! k) in
  match FurnitureIn_fields (arg "name") (arg "category") (arg "material")
          (arg "price") (default (VInt 0) (kwargs !! "stock"))
          (arg "width_cm") (arg "depth_cm") (arg "height_cm")
          (arg "image_url") with
  | Some r => ret r
  | None => raise (validation_error "Furniture")
  end.

End Schemas.

(** ** database.py *)

Module Database.

Definition StoreUnavailable : exn := Exception "Database not available".

(** Modelled from the spec: the module [database] with
    [create_document] is not part of the sources.
    [insert(collectionName, record) -> id] serializes the record, inserts
    it as a new document and returns the newly assigned identifier as a
    string; it fails with StoreUnavailable if no connection is
    established, and with the write failure of the store otherwise. *)
Definition create_document (coll : string) (data : FurnitureIn)
    (new_id : ObjectId.t) : M string :=
  d <- get_db;;
  match d with
  | None => mraise StoreUnavailable
  | Some d =>
      inserted <- driver (Pymongo.InsertOne coll)
        (fun d => Pymongo.insert_one d coll (model_dump data) new_id) d;;
      mret (ObjectId.to_str inserted)
  end.

(** Modelled from the spec: the module [database] with [get_documents]
    is not part of the sources.
    [find(collectionName, filter, limit?)] returns the documents matching
    the filter in store-native order, optionally capped at [limit], the
    empty sequence when nothing matches; it fails with StoreUnavailable
    if not connected. *)
Definition get_documents (coll : string) (f : gmap string cond)
    (limit : option nat) : M (list document) :=
  d <- get_db;;
  match d with
  | None => mraise StoreUnavailable
  | Some d =>
      driver (Pymongo.Find coll)
        (fun d => (Pymongo.find d coll f limit, d)) d
  end.

End Database.

Import Database.

(** ** main.py: the diagnostic endpoint *)









(** ** main.py: CRUD endpoints for furniture *)

(** [except Exception as e: raise HTTPException(status_code=500, detail=str(e))] *)
Definition as_500 {A} (e : exn) : M A :=
  mraise (HTTPException 500 (exn_str e)).

(** [except HTTPException: raise] followed by the clause above. *)
Definition reraise_or_500 {A} (e : exn) : M A :=
  match e with
  | HTTPException _ _ => mraise e
  | Exception _ => as_500 e
  end.

(** The [new_id] argument is the identifier the driver generates for the
    inserted document. *)
Definition create_furniture (item : FurnitureIn) (new_id : ObjectId.t) : M string :=
  try_except
    (furniture <- lift (Schemas.Furniture (model_dump item));;
     inserted_id <- create_document "furniture" furniture new_id;;
     mret inserted_id)
    as_500.

(** The [FurnitureOut(...)] built from a document [d]: [d.get(k)] is
    [None] for a missing key, [d.get("stock", 0)] is [0], and [id] is the
    text of the document's [_id]. *)
Definition to_out (d : document) : result FurnitureOut :=
  let field k := default VNull (get d k) in
  FurnitureOut_init
    (VStr (ObjectId.to_str (_id d)))
    (field "name")
    (field "category")
    (field "material")
    (field "price")
    (default (VInt 0) (get d "stock"))
    (field "width_cm")
    (field "depth_cm")
    (field "height_cm")
    (field "image_url").

(** [for d in docs: results.append(FurnitureOut(...))] *)
Fixpoint append_results (docs : list document) (results : list FurnitureOut)
    : result (list FurnitureOut) :=
  match docs with
  | [] => ret results
  | d :: docs' =>
      match to_out d with
      | inr o => append_results docs' (results ++ [o])
      | inl e => raise e
      end
  end.

Definition list_furniture (category q : option string) : M (list FurnitureOut) :=
  try_except
    (let filter_q : gmap string cond := ∅ in
     let filter_q :=
       match category with
       | Some (String _ _ as c) => <["category" := Equals (VStr c)]> filter_q
       | _ => filter_q
       end in
     let filter_q :=
       match q with
       | Some (String _ _ as pat) => <["name" := RegexOp pat "i"]> filter_q
       | _ => filter_q
       end in
     docs <- get_documents "furniture" filter_q None;;
     results <- lift (append_results docs []);;
     mret results)
    as_500.

Definition get_furniture (item_id : string) : M FurnitureOut :=
  try_except
    (oid <- lift (ObjectId_init item_id);;
     docs <- get_documents "furniture" {["_id" := Equals (VOid oid)]} (Some 1%nat);;
     match docs with
     | [] => mraise (HTTPException 404 "Item not found")
     | d :: _ => lift (to_out d)
     end)
    reraise_or_500.

Inductive status_body :=
| StatusOk
| StatusDeleted.

(** The [now] argument is the reading of [datetime.utcnow()]. *)
Definition update_furniture (item_id : string) (item : FurnitureIn) (now : Z)
    : M status_body :=
  try_except
    (d <- get_db;;
     match d with
     | None => mraise (Exception "Database not available")
     | Some d =>
         let update_data := model_dump item in
         let update_data := <["updated_at" := VDate now]> update_data in
         oid <- lift (ObjectId_init item_id);;
         result <- driver (Pymongo.FindOneAndUpdate "furniture")
                     (fun d => Pymongo.find_one_and_update d "furniture"
                                 {["_id" := Equals (VOid oid)]} update_data) d;;
         match result with
         | None => mraise (HTTPException 404 "Item not found")
         | Some _ => mret StatusOk
         end
     end)
    reraise_or_500.

Definition delete_furniture (item_id : string) : M status_body :=
  try_except
    (d <- get_db;;
     match d with
     | None => mraise (Exception "Database not available")
     | Some d =>
         oid <- lift (ObjectId_init item_id);;
         deleted_count <- driver (Pymongo.DeleteOne "furniture")
                            (fun d => Pymongo.delete_one d "furniture"
                                        {["_id" := Equals (VOid oid)]}) d;;
         if bool_decide (deleted_count = 0%Z)
         then mraise (HTTPException 404 "Item not found")
         else mret StatusDeleted
     end)
    reraise_or_500.

(** The state after one more driver operation was issued. *)
Definition logged (c : Pymongo.call) (w : world) : world :=
  {| db := db w; environ := environ w; trace := trace w ++ [c] |}.

(** One request: the handler runs on the current state and the framework
    turns its outcome into a response. *)
Definition request {A} (handler : M A) (w : world) : response A * world :=
  let '(r, w') := handler w in (serve r, w').

(** The documents of the furniture collection, empty when there is no
    connection. *)
Definition stored (w : world) : list document :=
  match db w with
  | Some d => Pymongo.collection d "furniture"
  | None => []
  end.

(** ** Records held by the store *)

(** The record a document is served as, when it passes validation. *)
Definition out_of (d : document) : option FurnitureOut :=
  match to_out d with
  | inr o => Some o
  | inl _ => None
  end.

(** The stored documents all are furniture records. *)
Definition well_formed (w : world) : Prop :=
  Forall (fun d => is_Some (out_of d)) (stored w).

#[global] Instance well_formed_dec (w : world) : Decision (well_formed w).
Proof. unfold well_formed. apply _. Defined.

(** The stored furniture records, in the order of the store. *)
Definition records (w : world) : list FurnitureOut := omap out_of (stored w).

(** The store is connected and answers. *)
Definition live (w : world) : Prop :=
  exists d, db w = Some d /\ Pymongo.fault d = None.

(** No two stored documents share an identifier. *)
Definition unique_ids (w : world) : Prop := NoDup (_id <$> stored w).

#[global] Instance unique_ids_dec (w : world) : Decision (unique_ids w).
Proof. unfold unique_ids. apply _. Defined.

(** The stored identifiers are the store's own: twelve bytes each. *)
Definition twelve_byte_ids (w : world) : Prop :=
  Forall (fun d => ObjectId.wf (_id d)) (stored w).

#[global] Instance twelve_byte_ids_dec (w : world) : Decision (twelve_byte_ids w).
Proof. unfold twelve_byte_ids, ObjectId.wf. apply _. Defined.

(** The condition a [category] parameter puts on a record: none when the
    parameter is absent or empty. *)
Definition category_selects (c : option string) (o : FurnitureOut) : bool :=
  match c with
  | Some (String _ _ as c) => bool_decide (category (record o) = c)
  | _ => true
  end.

(** The condition a [q] parameter puts on a record: the store's search for
    the pattern [q] in the name, ignoring case; none when the parameter is
    absent or empty. *)
Definition q_selects (q : option string) (o : FurnitureOut) : bool :=
  match q with
  | Some (String _ _ as pat) =>
      bool_decide (Regex.regex_match pat "i" (name (record o)) = Some true)
  | _ => true
  end.

(** The store accepts the pattern of a [q] parameter. *)
Definition q_accepted (q : option string) : Prop :=
  match q with
  | Some (String _ _ as pat) => is_Some (Regex.compile pat)
  | _ => True
  end.

(** [name] contains [q] as a substring, ignoring case. *)
Definition name_contains (q : string) (o : FurnitureOut) : bool :=
  PyStr.contains_ci (PyStr.chars q) (PyStr.chars (name (record o))).

(** The filter dictionary [list_furniture] builds. *)
Definition filter_of (c q : option string) : gmap string cond :=
  let filter_q : gmap string cond := ∅ in
  let filter_q :=
    match c with
    | Some (String _ _ as c) => <["category" := Equals (VStr c)]> filter_q
    | _ => filter_q
    end in
  match q with
  | Some (String _ _ as pat) => <["name" := RegexOp pat "i"]> filter_q
  | _ => filter_q
  end.

(** ** A small shop, for examples *)

Module Shop.

Definition oid1 : ObjectId.t :=
  default [] (ObjectId.parse "507f1f77bcf86cd799439011").

Definition oid2 : ObjectId.t :=
  default [] (ObjectId.parse "507f1f77bcf86cd799439012").

Definition oid3 : ObjectId.t :=
  default [] (ObjectId.parse "507f1f77bcf86cd799439013").

Definition oid4 : ObjectId.t :=
  default [] (ObjectId.parse "507f1f77bcf86cd799439014").

Definition desk_payload : payload :=
  {| p_name := "Oak Desk"; p_category := "Desks"; p_material := None;
     p_price := 19999 # 100; p_stock := None; p_width_cm := None;
     p_depth_cm := None; p_height_cm := None; p_image_url := None |}.

Definition sofa_payload : payload :=
  {| p_name := "Sofa"; p_category := "Seating"; p_material := Some "Linen";
     p_price := 450; p_stock := Some 3%Z; p_width_cm := Some (180 # 1);
     p_depth_cm := None; p_height_cm := None; p_image_url := None |}.

Definition table_payload : payload :=
  {| p_name := "Table"; p_category := "Tables"; p_material := Some "Oak";
     p_price := 120; p_stock := Some 2%Z; p_width_cm := None;
     p_depth_cm := None; p_height_cm := None; p_image_url := None |}.

Definition nightstand_payload : payload :=
  {| p_name := "Nightstand Tab"; p_category := "Tables"; p_material := None;
     p_price := 80; p_stock := Some 1%Z; p_width_cm := None;
     p_depth_cm := None; p_height_cm := None; p_image_url := None |}.

Definition desk : FurnitureIn := parse_body desk_payload.
Definition sofa : FurnitureIn := parse_body sofa_payload.
Definition table : FurnitureIn := parse_body table_payload.
Definition nightstand : FurnitureIn := parse_body nightstand_payload.

Definition desk_out : FurnitureOut :=
  {| record := desk; id := "507f1f77bcf86cd799439011" |}.

Definition sofa_out : FurnitureOut :=
  {| record := sofa; id := "507f1f77bcf86cd799439012" |}.

Definition table_out : FurnitureOut :=
  {| record := table; id := "507f1f77bcf86cd799439013" |}.

Definition nightstand_out : FurnitureOut :=
  {| record := nightstand; id := "507f1f77bcf86cd799439014" |}.

(** A connected, empty store. *)
Definition empty : world :=
  {| db := Some {| Pymongo.name := Some "shop"; Pymongo.fault := None;
                   Pymongo.collections := ∅ |};
     environ := <["DATABASE_URL" := "mongodb://localhost:27017"]> ∅;
     trace := [] |}.

(** The store after the desk and the sofa were posted. *)
Definition two_items : world :=
  snd (request (create_furniture sofa oid2)
         (snd (request (create_furniture desk oid1) empty))).

(** The store after the table and the nightstand were posted as well. *)
Definition four_items : world :=
  snd (request (create_furniture nightstand oid4)
         (snd (request (create_furniture table oid3) two_items))).


Definition sofa_doc : document :=
  {| _id := oid2; fields := model_dump sofa |}.

(** A process started without a connection. *)
Definition offline : world :=
  {| db := None; environ := ∅; trace := [] |}.

(** A connection whose server stopped answering. *)
Definition unreachable : world :=
  {| db := Some {| Pymongo.name := Some "shop";
                   Pymongo.fault :=
                     Some "localhost:27017: [Errno 111] Connection refused";
                   Pymongo.collections := ∅ |};
     environ := ∅; trace := [] |}.

End Shop.

(** ** Further scenes, for examples *)

Module Scenes.



(** The sofa's document with a field the API never writes. *)
Definition tagged_sofa_doc : document :=
  {| _id := Shop.oid2;
     fields := <["warehouse" := VStr "north"]> (model_dump Shop.sofa) |}.

End Scenes.

(** The field names a served record is built from. *)
Definition record_keys : list string :=
  ["name"; "category"; "material"; "price"; "stock";
   "width_cm"; "depth_cm"; "height_cm"; "image_url"].

(** * Properties *)

(** ** Identifiers *)

Module ObjectIdFacts.
Import ObjectId.

Lemma char_digit_digit_char (h : hexdigit) : char_digit (digit_char h) = Some h.
Proof. destruct h; reflexivity. Qed.

Lemma is_space_digit_char (h : hexdigit) : is_space (digit_char h) = false.
Proof. destruct h; reflexivity. Qed.

Lemma length_to_str (o : ObjectId.t) : String.length (to_str o) = length o.
Proof. induction o as [|h o IH]; simpl; [reflexivity | rewrite IH; reflexivity]. Qed.

Lemma fromhex_to_str (n : nat) (o : ObjectId.t) :
  length o = (2 * n)%nat -> fromhex (to_str o) = Some o.
Proof.
  revert o. induction n as [|n IH]; intros o Hlen.
  - destruct o; [reflexivity | discriminate Hlen].
  - destruct o as [|h1 [|h2 o]]; try (simpl in Hlen; lia).
    cbn [to_str fromhex].
    rewrite is_space_digit_char, !char_digit_digit_char.
    rewrite (IH o) by (simpl in Hlen; lia). reflexivity.
Qed.

(** Parsing the text of an identifier gives the identifier back. *)
Lemma parse_to_str (o : ObjectId.t) : wf o -> parse (to_str o) = Some o.
Proof.
  intros Hwf. unfold parse. rewrite length_to_str.
  rewrite bool_decide_true by exact Hwf.
  apply (fromhex_to_str 12). exact Hwf.
Qed.

End ObjectIdFacts.

(** ** Patterns without special characters *)

Module RegexFacts.
Import Regex.

Lemma token_of_plain (c : ascii) : meta c = false -> token_of c = TChar c.
Proof.
  unfold meta.
  destruct c as [[] [] [] [] [] [] [] []]; simpl; intros H;
    first [reflexivity | discriminate H].
Qed.

Lemma parse_atom_plain (c : ascii) (s : list ascii) (fuel : nat) :
  meta c = false -> (1 <= fuel)%nat ->
  parse_atom fuel (c :: s) = Some (Lit c, s).
Proof.
  intros Hc Hf. destruct fuel as [|f]; [lia|].
  simpl. rewrite (token_of_plain c Hc). reflexivity.
Qed.

Lemma parse_quant_plain (a : re) (s : list ascii) :
  plain s = true -> parse_quant a s = Some (a, s).
Proof.
  destruct s as [|c s]; [reflexivity|]. simpl. intros Hp.
  apply andb_true_iff in Hp as [Hc _]. apply negb_true_iff in Hc.
  rewrite (token_of_plain c Hc). reflexivity.
Qed.

Lemma parse_seq_plain (s : list ascii) (fuel : nat) :
  plain s = true -> (2 * length s + 1 <= fuel)%nat ->
  parse_seq fuel s = Some (lits s, []).
Proof.
  revert fuel. induction s as [|c s IH]; intros fuel Hp Hf.
  - destruct fuel; [simpl in Hf; lia | reflexivity].
  - simpl in Hp. apply andb_true_iff in Hp as [Hc Hs].
    apply negb_true_iff in Hc.
    destruct fuel as [|f]; [simpl in Hf; lia|].
    cbn [parse_seq]. rewrite (token_of_plain c Hc).
    rewrite (parse_atom_plain c s f Hc) by (simpl in Hf; lia).
    rewrite (parse_quant_plain _ s Hs).
    rewrite (IH f Hs) by (simpl in Hf |- *; lia).
    reflexivity.
Qed.

Lemma compile_plain (pat : string) :
  plain (PyStr.chars pat) = true ->
  compile pat = Some (lits (PyStr.chars pat)).
Proof.
  intros Hp. unfold compile.
  set (s := PyStr.chars pat) in *.
  replace (3 * length s + 3)%nat with (S (3 * length s + 2)) by lia.
  cbn [parse_alt].
  rewrite (parse_seq_plain s _ Hp) by lia. reflexivity.
Qed.

Section Matching.
Variable ci : bool.

Lemma prefix_match_Never (t : list ascii) : prefix_match ci Never t = false.
Proof. induction t as [|c t IH]; simpl; [reflexivity | exact IH]. Qed.

Lemma prefix_match_Alt (r1 r2 : re) (t : list ascii) :
  prefix_match ci (Alt r1 r2) t = prefix_match ci r1 t || prefix_match ci r2 t.
Proof.
  revert r1 r2. induction t as [|c t IH]; intros r1 r2; simpl.
  - rewrite !orb_false_r. reflexivity.
  - rewrite IH.
    destruct (nullable r1), (nullable r2); simpl;
      rewrite ?orb_true_r; try reflexivity.
Qed.

Lemma prefix_match_Seq_Never (r : re) (t : list ascii) :
  prefix_match ci (Seq Never r) t = false.
Proof.
  induction t as [|c t IH]; simpl; [reflexivity|].
  rewrite prefix_match_Alt, IH, prefix_match_Never. reflexivity.
Qed.

Lemma prefix_match_Seq_Empty (r : re) (t : list ascii) :
  prefix_match ci (Seq Empty r) t = prefix_match ci r t.
Proof.
  destruct t as [|c t]; simpl; [rewrite orb_false_r; reflexivity|].
  rewrite prefix_match_Alt, prefix_match_Seq_Never. reflexivity.
Qed.

(** A literal in front consumes one matching character. *)
Lemma prefix_match_Seq_Lit (a : ascii) (r : re) (t : list ascii) :
  prefix_match ci (Seq (Lit a) r) t =
  match t with
  | [] => false
  | c :: t' => same ci a c && prefix_match ci r t'
  end.
Proof.
  destruct t as [|c t]; simpl; [reflexivity|].
  rewrite prefix_match_Alt, prefix_match_Never, orb_false_r.
  destruct (same ci a c); simpl.
  - apply prefix_match_Seq_Empty.
  - apply prefix_match_Seq_Never.
Qed.

End Matching.

Lemma prefix_match_lits (p t : list ascii) :
  prefix_match true (lits p) t = PyStr.is_prefix_ci p t.
Proof.
  revert t. induction p as [|a p IH]; intros t.
  - destruct t; reflexivity.
  - cbn [lits]. rewrite prefix_match_Seq_Lit.
    destruct t as [|c t]; [reflexivity|].
    cbn [PyStr.is_prefix_ci]. rewrite IH. reflexivity.
Qed.

Lemma search_lits (p t : list ascii) :
  search true (lits p) t = PyStr.contains_ci p t.
Proof.
  induction t as [|c t IH]; cbn [search PyStr.contains_ci];
    rewrite prefix_match_lits; [reflexivity|].
  rewrite IH. reflexivity.
Qed.

(** With the option [i], a pattern of ordinary characters is found in a
    string exactly when it occurs in it up to case. *)
Lemma regex_match_plain (pat subject : string) :
  plain (PyStr.chars pat) = true ->
  regex_match pat "i" subject =
  Some (PyStr.contains_ci (PyStr.chars pat) (PyStr.chars subject)).
Proof.
  intros Hp. unfold regex_match. rewrite (compile_plain pat Hp).
  cbn [has_option]. rewrite bool_decide_true by reflexivity.
  cbn [orb]. rewrite search_lits. reflexivity.
Qed.

End RegexFacts.

(** ** Filters *)

Module BsonFacts.

Lemma matches_empty (d : document) : matches ∅ d = true.
Proof. apply bool_decide_eq_true. apply map_Forall_empty. Qed.

Lemma matches_insert (k : string) (c : cond) (f : gmap string cond) (d : document) :
  f !! k = None -> matches (<[k := c]> f) d = cond_holds d k c && matches f d.
Proof.
  intros Hk. unfold matches.
  rewrite (bool_decide_ext _ _ (map_Forall_insert _ f k c Hk)).
  rewrite bool_decide_and. f_equal.
  destruct (cond_holds d k c); [apply bool_decide_eq_true | apply bool_decide_eq_false];
    congruence.
Qed.

Lemma matches_singleton (k : string) (c : cond) (d : document) :
  matches {[k := c]} d = cond_holds d k c.
Proof.
  rewrite <- insert_empty, matches_insert by apply lookup_empty.
  rewrite matches_empty. apply andb_true_r.
Qed.

Lemma filter_ok_empty : filter_ok ∅ = true.
Proof. apply bool_decide_eq_true. apply map_Forall_empty. Qed.

Lemma filter_ok_insert (k : string) (c : cond) (f : gmap string cond) :
  f !! k = None -> filter_ok (<[k := c]> f) = cond_ok c && filter_ok f.
Proof.
  intros Hk. unfold filter_ok.
  rewrite (bool_decide_ext _ _ (map_Forall_insert _ f k c Hk)).
  rewrite bool_decide_and. f_equal.
  destruct (cond_ok c); [apply bool_decide_eq_true | apply bool_decide_eq_false];
    congruence.
Qed.

Lemma filter_ok_singleton (k : string) (c : cond) :
  filter_ok {[k := c]} = cond_ok c.
Proof.
  rewrite <- insert_empty, filter_ok_insert by apply lookup_empty.
  rewrite filter_ok_empty. apply andb_true_r.
Qed.

(** The filter [{"_id": oid}] selects by identifier. *)
Lemma matches_id (o : ObjectId.t) (d : document) :
  matches {["_id" := Equals (VOid o)]} d = Pymongo.has_id o d.
Proof.
  rewrite matches_singleton. unfold cond_holds, get, Pymongo.has_id.
  rewrite (bool_decide_true ("_id" = "_id")) by reflexivity.
  apply bool_decide_ext. split; [intros [= ->] | intros ->]; reflexivity.
Qed.

Lemma filter_ok_id (o : ObjectId.t) : filter_ok {["_id" := Equals (VOid o)]} = true.
Proof. apply filter_ok_singleton. Qed.

End BsonFacts.

(** ** Documents as records *)

Module RecordFacts.

Ltac split_validation H :=
  unfold out_of, to_out, FurnitureOut_init, FurnitureIn_fields in H;
  repeat match type of H with
         | context [match ?x with _ => _ end] =>
             lazymatch x with
             | context [match _ with _ => _ end] => fail
             | _ => destruct x eqn:?; try discriminate H
             end
         end;
  unfold ret, raise in *; simplify_eq/=.

Lemma as_str_Some (o : option value) (s : string) :
  as_str (default VNull o) = Some s -> o = Some (VStr s).
Proof. destruct o as [[]|]; simpl; intros [=]; subst; reflexivity. Qed.

Lemma out_of_name (d : document) (o : FurnitureOut) :
  out_of d = Some o -> get d "name" = Some (VStr (name (record o))).
Proof. intros H. split_validation H. apply as_str_Some. assumption. Qed.

Lemma out_of_category (d : document) (o : FurnitureOut) :
  out_of d = Some o -> get d "category" = Some (VStr (category (record o))).
Proof. intros H. split_validation H. apply as_str_Some. assumption. Qed.

Lemma out_of_id (d : document) (o : FurnitureOut) :
  out_of d = Some o -> id o = ObjectId.to_str (_id d).
Proof. intros H. split_validation H. reflexivity. Qed.


(** A document holding the dump of [item] is served as [item]. *)
Lemma to_out_dump (oid : ObjectId.t) (flds : gmap string value) (item : FurnitureIn) :
  (forall k, is_Some (model_dump item !! k) -> flds !! k = model_dump item !! k) ->
  to_out {| _id := oid; fields := flds |} =
  inr {| record := item; id := ObjectId.to_str oid |}.
Proof.
  intros Hk. unfold to_out, get. cbn [_id fields].
  repeat (rewrite bool_decide_false by discriminate).
  rewrite !Hk by (eexists; reflexivity).
  destruct item as [n c m p s w dd h i].
  destruct m, w, dd, h, i; reflexivity.
Qed.

Lemma append_results_valid (docs : list document) (acc : list FurnitureOut) :
  Forall (fun d => is_Some (out_of d)) docs ->
  append_results docs acc = inr (acc ++ omap out_of docs).
Proof.
  revert acc. induction docs as [|d docs IH]; intros acc Hv; simpl.
  - rewrite app_nil_r. reflexivity.
  - inversion Hv as [|? ? [o Ho] Hrest]; subst.
    unfold out_of in Ho |- *. destruct (to_out d) as [e|o']; [discriminate|].
    injection Ho as ->. rewrite IH by assumption.
    rewrite <- app_assoc. reflexivity.
Qed.

(** Selecting documents and then serving them is serving them and then
    selecting records, when the two conditions agree. *)
Lemma omap_filter (P : document -> bool) (Q : FurnitureOut -> bool)
    (docs : list document) :
  (forall d o, out_of d = Some o -> P d = Q o) ->
  Forall (fun d => is_Some (out_of d)) docs ->
  omap out_of (List.filter P docs) = List.filter Q (omap out_of docs).
Proof.
  intros HPQ Hv. induction Hv as [|d docs [o Ho] _ IH]; [reflexivity|].
  cbn [List.filter]. rewrite (HPQ d o Ho).
  destruct (Q o) eqn:HQ; cbn; rewrite Ho; cbn [List.filter]; rewrite ?HQ;
    [f_equal|]; exact IH.
Qed.

Lemma Forall_filter_valid (P : document -> bool) (docs : list document) :
  Forall (fun d => is_Some (out_of d)) docs ->
  Forall (fun d => is_Some (out_of d)) (List.filter P docs).
Proof.
  intros Hv. induction Hv as [|d docs Hd _ IH]; simpl; [constructor|].
  destruct (P d); [constructor|]; assumption.
Qed.

End RecordFacts.

(** ** The handlers, step by step *)

Module HandlerFacts.
Import BsonFacts RecordFacts.

Lemma logged_db (c : Pymongo.call) (w : world) : db (logged c w) = db w.
Proof. reflexivity. Qed.

Lemma logged_stored (c : Pymongo.call) (w : world) : stored (logged c w) = stored w.
Proof. reflexivity. Qed.

Lemma get_documents_live (w : world) (d : Pymongo.Database) (coll : string)
    (f : gmap string cond) (limit : option nat) :
  db w = Some d ->
  get_documents coll f limit w =
  (Pymongo.find d coll f limit, logged (Pymongo.Find coll) w).
Proof.
  intros Hd. unfold get_documents, mbind, get_db, driver, logged.
  rewrite Hd. reflexivity.
Qed.

Lemma find_live (d : Pymongo.Database) (coll : string) (f : gmap string cond)
    (limit : option nat) :
  Pymongo.fault d = None -> filter_ok f = true ->
  Pymongo.find d coll f limit =
  inr (Pymongo.capped limit (List.filter (matches f) (Pymongo.collection d coll))).
Proof. intros Hf Hok. unfold Pymongo.find. rewrite Hf, Hok. reflexivity. Qed.

Lemma cond_category (d : document) (o : FurnitureOut) (c : string) :
  out_of d = Some o ->
  cond_holds d "category" (Equals (VStr c)) = bool_decide (category (record o) = c).
Proof.
  intros Ho. unfold cond_holds. rewrite (out_of_category d o Ho).
  apply bool_decide_ext. split; [intros [= ->] | intros ->]; reflexivity.
Qed.

Lemma cond_name (d : document) (o : FurnitureOut) (pat : string) :
  out_of d = Some o ->
  cond_holds d "name" (RegexOp pat "i") =
  bool_decide (Regex.regex_match pat "i" (name (record o)) = Some true).
Proof. intros Ho. unfold cond_holds. rewrite (out_of_name d o Ho). reflexivity. Qed.

Lemma filter_of_ok (c q : option string) :
  q_accepted q -> filter_ok (filter_of c q) = true.
Proof.
  intros Hq. unfold filter_of.
  destruct q as [[|b q]|]; destruct c as [[|a c]|];
    rewrite ?filter_ok_insert by reflexivity;
    rewrite ?filter_ok_empty; try reflexivity;
    simpl; rewrite bool_decide_true by exact Hq; reflexivity.
Qed.

Lemma filter_of_matches (c q : option string) (d : document) (o : FurnitureOut) :
  out_of d = Some o ->
  matches (filter_of c q) d = category_selects c o && q_selects q o.
Proof.
  intros Ho. unfold filter_of.
  destruct q as [[|b q]|]; destruct c as [[|a c]|];
    rewrite ?matches_insert by reflexivity;
    rewrite ?matches_empty;
    rewrite ?(cond_category d o _ Ho), ?(cond_name d o _ Ho);
    cbn [category_selects q_selects];
    rewrite ?andb_true_r; try reflexivity.
  apply andb_comm.
Qed.

(** On a store that answers and holds furniture records only, the list
    endpoint serves the records both parameters select. *)
Lemma list_furniture_live (w : world) (c q : option string) :
  live w -> well_formed w -> q_accepted q ->
  request (list_furniture c q) w =
  ({| status := 200;
      content := Payload (List.filter
                            (fun o => category_selects c o && q_selects q o)
                            (records w)) |},
   logged (Pymongo.Find "furniture") w).
Proof.
  intros (d & Hd & Hf) Hwf Hq.
  unfold request, list_furniture. fold (filter_of c q).
  unfold try_except, mbind.
  rewrite (get_documents_live w d _ _ _ Hd).
  rewrite (find_live d _ _ _ Hf (filter_of_ok c q Hq)).
  cbn [lift mret Pymongo.capped].
  unfold well_formed, records, stored in *. rewrite Hd in *.
  rewrite append_results_valid by (apply Forall_filter_valid; exact Hwf).
  rewrite (omap_filter (matches (filter_of c q))
             (fun o => category_selects c o && q_selects q o));
    [reflexivity | | exact Hwf].
  intros d' o Ho. apply filter_of_matches. exact Ho.
Qed.

Lemma contains_ci_nil (t : list ascii) : PyStr.contains_ci [] t = true.
Proof. destruct t; reflexivity. Qed.

Lemma bool_decide_Some_true (b : bool) : bool_decide (Some b = Some true) = b.
Proof.
  destruct b; [apply bool_decide_eq_true | apply bool_decide_eq_false]; congruence.
Qed.

(** For a pattern of ordinary characters the store's search is the
    substring test. *)
Lemma q_selects_plain (q : string) (o : FurnitureOut) :
  Regex.plain (PyStr.chars q) = true ->
  q_selects (Some q) o = name_contains q o.
Proof.
  intros Hp. unfold name_contains. destruct q as [|b q].
  - cbn [q_selects PyStr.chars list_ascii_of_string].
    rewrite contains_ci_nil. reflexivity.
  - cbn [q_selects]. rewrite (RegexFacts.regex_match_plain _ _ Hp).
    apply bool_decide_Some_true.
Qed.

Lemma q_accepted_plain (q : string) :
  Regex.plain (PyStr.chars q) = true -> q_accepted (Some q).
Proof.
  intros Hp. destruct q as [|b q]; [exact I|]. cbn [q_accepted].
  rewrite (RegexFacts.compile_plain _ Hp). eexists; reflexivity.
Qed.

Lemma filter_ext_in {A} (f g : A -> bool) (l : list A) :
  (forall a, f a = g a) -> List.filter f l = List.filter g l.
Proof.
  intros Hfg. induction l as [|a l IH]; simpl; [reflexivity|].
  rewrite Hfg, IH. reflexivity.
Qed.

End HandlerFacts.

(** ** Writing handlers *)

Module CrudFacts.
Import BsonFacts RecordFacts ObjectIdFacts HandlerFacts.

(** Unfold the monad and run the handler as far as the state is known. *)
Ltac run :=
  cbv beta iota zeta delta
    [ret raise mret mraise mbind lift try_except get_db getenv driver
     request serve as_500 reraise_or_500 ObjectId_init].

Lemma Furniture_dump (item : FurnitureIn) :
  Schemas.Furniture (model_dump item) = inr item.
Proof.
  destruct item as [n c m p s w d h i].
  destruct m, w, d, h, i; reflexivity.
Qed.

Lemma collection_with_collection (d : Pymongo.Database) (coll : string)
    (docs : list document) :
  Pymongo.collection (Pymongo.with_collection d coll docs) coll = docs.
Proof.
  unfold Pymongo.collection, Pymongo.with_collection. cbn [Pymongo.collections].
  rewrite lookup_insert_eq. reflexivity.
Qed.

Lemma existsb_has_id_false (o : ObjectId.t) (docs : list document) :
  o ∉ (_id <$> docs) -> existsb (Pymongo.has_id o) docs = false.
Proof.
  induction docs as [|d docs IH]; [reflexivity|].
  rewrite fmap_cons, not_elem_of_cons. intros [Hne Hrest].
  cbn [existsb]. rewrite (IH Hrest). unfold Pymongo.has_id.
  rewrite bool_decide_false by congruence. reflexivity.
Qed.

Lemma filter_id_absent (o : ObjectId.t) (docs : list document) :
  o ∉ (_id <$> docs) ->
  List.filter (matches {["_id" := Equals (VOid o)]}) docs = [].
Proof.
  induction docs as [|d docs IH]; [reflexivity|].
  rewrite fmap_cons, not_elem_of_cons. intros [Hne Hrest].
  cbn [List.filter]. rewrite matches_id. unfold Pymongo.has_id.
  rewrite bool_decide_false by congruence. apply IH. exact Hrest.
Qed.

(** Posting on a store that answers, with an unused identifier. *)
Lemma create_furniture_live (w : world) (d : Pymongo.Database)
    (item : FurnitureIn) (new_id : ObjectId.t) :
  db w = Some d -> Pymongo.fault d = None ->
  new_id ∉ (_id <$> stored w) ->
  request (create_furniture item new_id) w =
  ({| status := 200; content := Payload (ObjectId.to_str new_id) |},
   {| db := Some (Pymongo.with_collection d "furniture"
                    (Pymongo.collection d "furniture" ++
                     [{| _id := new_id; fields := model_dump item |}]));
      environ := environ w;
      trace := trace w ++ [Pymongo.InsertOne "furniture"] |}).
Proof.
  intros Hd Hf Hfresh. unfold stored in Hfresh. rewrite Hd in Hfresh.
  unfold create_furniture, create_document. run.
  rewrite Furniture_dump, Hd. run.
  unfold Pymongo.insert_one. rewrite Hf.
  rewrite (existsb_has_id_false _ _ Hfresh). reflexivity.
Qed.

(** Reading a document that is the only one with its identifier. *)
Lemma get_furniture_found (w : world) (d : Pymongo.Database) (item_id : string)
    (o : ObjectId.t) (doc : document) (out : FurnitureOut)
    (pre post : list document) :
  db w = Some d -> Pymongo.fault d = None ->
  ObjectId.parse item_id = Some o ->
  Pymongo.collection d "furniture" = pre ++ doc :: post ->
  o ∉ (_id <$> pre) -> _id doc = o -> to_out doc = inr out ->
  fst (request (get_furniture item_id) w) =
  {| status := 200; content := Payload out |}.
Proof.
  intros Hd Hf Hp Hdocs Hpre Hdoc Hout.
  unfold get_furniture. run. rewrite Hp.
  rewrite (get_documents_live w d _ _ _ Hd).
  rewrite (find_live d _ _ _ Hf (filter_ok_id o)).
  rewrite Hdocs, List.filter_app, (filter_id_absent o pre Hpre).
  cbn [app List.filter]. rewrite matches_id. unfold Pymongo.has_id.
  rewrite bool_decide_true by exact Hdoc.
  cbn [Pymongo.capped firstn]. run. rewrite Hout. reflexivity.
Qed.

Lemma remove_first_absent (o : ObjectId.t) (docs : list document) :
  o ∉ (_id <$> docs) ->
  Pymongo.remove_first {["_id" := Equals (VOid o)]} docs = None.
Proof.
  induction docs as [|d docs IH]; [reflexivity|].
  rewrite fmap_cons, not_elem_of_cons. intros [Hne Hrest].
  cbn [Pymongo.remove_first]. rewrite matches_id. unfold Pymongo.has_id.
  rewrite bool_decide_false by congruence. rewrite (IH Hrest). reflexivity.
Qed.

Lemma filter_other_absent (o : ObjectId.t) (docs : list document) :
  o ∉ (_id <$> docs) ->
  List.filter (fun d => negb (Pymongo.has_id o d)) docs = docs.
Proof.
  induction docs as [|d docs IH]; [reflexivity|].
  rewrite fmap_cons, not_elem_of_cons. intros [Hne Hrest].
  cbn [List.filter]. unfold Pymongo.has_id at 1.
  rewrite bool_decide_false by congruence. cbn [negb].
  rewrite (IH Hrest). reflexivity.
Qed.

(** With distinct identifiers, removing the first document with identifier
    [o] removes every such document and no other. *)
Lemma remove_first_present (o : ObjectId.t) (docs : list document) :
  NoDup (_id <$> docs) -> o ∈ (_id <$> docs) ->
  Pymongo.remove_first {["_id" := Equals (VOid o)]} docs =
  Some (List.filter (fun d => negb (Pymongo.has_id o d)) docs).
Proof.
  induction docs as [|d docs IH]; [intros _ Hin; inversion Hin|].
  rewrite fmap_cons, NoDup_cons, elem_of_cons. intros [Hd Hnd] Hin.
  cbn [Pymongo.remove_first List.filter]. rewrite matches_id.
  unfold Pymongo.has_id at 1 2.
  case_bool_decide as Hid; cbn [negb].
  - subst o. rewrite (filter_other_absent _ _ Hd). reflexivity.
  - destruct Hin as [Heq | Hin]; [congruence|].
    rewrite (IH Hnd Hin). reflexivity.
Qed.

Lemma filter_other_ids (o : ObjectId.t) (docs : list document) :
  o ∉ (_id <$> List.filter (fun d => negb (Pymongo.has_id o d)) docs).
Proof.
  intros Hin. apply list_elem_of_fmap in Hin as (d & Hd & Hin).
  apply list_elem_of_In, filter_In in Hin as [_ Hin].
  unfold Pymongo.has_id in Hin. rewrite bool_decide_true in Hin by congruence.
  discriminate Hin.
Qed.




Lemma delete_furniture_live (w : world) (d : Pymongo.Database)
    (item_id : string) (o : ObjectId.t) :
  db w = Some d -> Pymongo.fault d = None -> ObjectId.parse item_id = Some o ->
  request (delete_furniture item_id) w =
  match Pymongo.remove_first {["_id" := Equals (VOid o)]}
          (Pymongo.collection d "furniture") with
  | Some docs' =>
      ({| status := 200; content := Payload StatusDeleted |},
       {| db := Some (Pymongo.with_collection d "furniture" docs');
          environ := environ w;
          trace := trace w ++ [Pymongo.DeleteOne "furniture"] |})
  | None =>
      ({| status := 404; content := Detail "Item not found" |},
       logged (Pymongo.DeleteOne "furniture") w)
  end.
Proof.
  intros Hd Hf Hp. unfold delete_furniture. run. rewrite Hd, Hp.
  unfold Pymongo.delete_one, logged. rewrite Hf, filter_ok_id, Hd.
  destruct (Pymongo.remove_first _ _); reflexivity.
Qed.

Lemma update_furniture_live (w : world) (d : Pymongo.Database)
    (item_id : string) (o : ObjectId.t) (item : FurnitureIn) (now : Z) :
  db w = Some d -> Pymongo.fault d = None -> ObjectId.parse item_id = Some o ->
  request (update_furniture item_id item now) w =
  match Pymongo.update_first {["_id" := Equals (VOid o)]}
          (Pymongo.set_fields (<["updated_at" := VDate now]> (model_dump item)))
          (Pymongo.collection d "furniture") with
  | Some (_, docs') =>
      ({| status := 200; content := Payload StatusOk |},
       {| db := Some (Pymongo.with_collection d "furniture" docs');
          environ := environ w;
          trace := trace w ++ [Pymongo.FindOneAndUpdate "furniture"] |})
  | None =>
      ({| status := 404; content := Detail "Item not found" |},
       logged (Pymongo.FindOneAndUpdate "furniture") w)
  end.
Proof.
  intros Hd Hf Hp. unfold update_furniture. run. rewrite Hd, Hp.
  unfold Pymongo.find_one_and_update, logged. rewrite Hf, filter_ok_id, Hd.
  destruct (Pymongo.update_first _ _ _) as [[hit docs']|]; reflexivity.
Qed.

End CrudFacts.

(** * The claims *)

Import BsonFacts HandlerFacts CrudFacts.

(** Tactics for the example worlds of [Shop]. *)
Ltac by_computation := apply (bool_decide_unpack _); vm_compute; exact I.
Ltac shop_live := eexists; split; vm_compute; reflexivity.
Ltac shop_well_formed := by_computation.

(** C1 (amended): for every query string [q] made of characters without a
    special meaning in a regular expression, on a store that answers and
    holds furniture records, [GET /api/furniture?q=q] returns with status
    200 exactly the stored records whose name contains [q] as a substring,
    ignoring case. *)
Theorem list_furniture_q_substring (w : world) (q : string) :
  live w -> well_formed w -> Regex.plain (PyStr.chars q) = true ->
  fst (request (list_furniture None (Some q)) w) =
  {| status := 200;
     content := Payload (List.filter (name_contains q) (records w)) |}.
Proof.
  intros Hl Hwf Hp.
  rewrite (list_furniture_live w None (Some q) Hl Hwf (q_accepted_plain q Hp)).
  cbn [fst]. rewrite (filter_ext_in _ (name_contains q)); [reflexivity|].
  intros o. cbn [category_selects andb]. apply q_selects_plain. exact Hp.
Qed.

(** The example of the specification: [q = "tab"] finds "Table" and
    "Nightstand Tab" among four stored records. *)
Lemma list_furniture_q_substring_witness :
  live Shop.four_items /\ well_formed Shop.four_items /\
  Regex.plain (PyStr.chars "tab") = true /\
  fst (request (list_furniture None (Some "tab")) Shop.four_items) =
  {| status := 200;
     content := Payload [Shop.table_out; Shop.nightstand_out] |}.
Proof.
  assert (Hl : live Shop.four_items) by shop_live.
  assert (Hwf : well_formed Shop.four_items) by shop_well_formed.
  assert (Hp : Regex.plain (PyStr.chars "tab") = true) by reflexivity.
  split; [exact Hl|]. split; [exact Hwf|]. split; [exact Hp|].
  rewrite (list_furniture_q_substring Shop.four_items "tab" Hl Hwf Hp).
  vm_compute. reflexivity.
Defined.

(** C1, as stated, fails: the pattern ["."] is a search for any character,
    so the endpoint returns the desk and the sofa although neither name
    contains a full stop. *)
Lemma list_furniture_q_dot_counterexample :
  live Shop.two_items /\ well_formed Shop.two_items /\
  fst (request (list_furniture None (Some ".")) Shop.two_items) =
    {| status := 200; content := Payload [Shop.desk_out; Shop.sofa_out] |} /\
  List.filter (name_contains ".") (records Shop.two_items) = [] /\
  fst (request (list_furniture None (Some ".")) Shop.two_items) <>
    {| status := 200;
       content := Payload (List.filter (name_contains ".")
                             (records Shop.two_items)) |}.
Proof.
  split; [shop_live|]. split; [shop_well_formed|].
  split; [vm_compute; reflexivity|]. split; [vm_compute; reflexivity|].
  intros H. vm_compute in H. discriminate H.
Qed.

(** C2: for every valid payload [P], on a store that answers, [POST
    /api/furniture] returns 200 with the identifier the store assigned, and
    [GET /api/furniture/{id}] with that identifier then returns 200 with a
    record whose fields are those of [P], [stock] being 0 when [P] leaves
    it out and every omitted optional field null. *)
Theorem create_then_get (w : world) (P : payload) (new_id : ObjectId.t) :
  live w -> ObjectId.wf new_id -> new_id ∉ (_id <$> stored w) ->
  fst (request (create_furniture (parse_body P) new_id) w) =
    {| status := 200; content := Payload (ObjectId.to_str new_id) |} /\
  fst (request (get_furniture (ObjectId.to_str new_id))
         (snd (request (create_furniture (parse_body P) new_id) w))) =
    {| status := 200;
       content :=
         Payload
           {| record :=
                {| name := p_name P; category := p_category P;
                   material := p_material P; price := p_price P;
                   stock := default 0%Z (p_stock P);
                   width_cm := p_width_cm P; depth_cm := p_depth_cm P;
                   height_cm := p_height_cm P; image_url := p_image_url P |};
              id := ObjectId.to_str new_id |} |}.
Proof.
  intros (d & Hd & Hf) Hwf Hfresh.
  rewrite (create_furniture_live w d _ new_id Hd Hf Hfresh). cbn [fst snd].
  split; [reflexivity|].
  eapply (get_furniture_found _ _ _ new_id _ _ (Pymongo.collection d "furniture") []).
  - reflexivity.
  - exact Hf.
  - apply ObjectIdFacts.parse_to_str. exact Hwf.
  - apply collection_with_collection.
  - unfold stored in Hfresh. rewrite Hd in Hfresh. exact Hfresh.
  - reflexivity.
  - apply RecordFacts.to_out_dump. intros k _. reflexivity.
Qed.

Lemma create_then_get_witness :
  live Shop.empty /\ ObjectId.wf Shop.oid1 /\
  (Shop.oid1 ∉ (_id <$> stored Shop.empty)) /\
  fst (request (create_furniture (parse_body Shop.desk_payload) Shop.oid1)
         Shop.empty) =
    {| status := 200; content := Payload "507f1f77bcf86cd799439011" |} /\
  fst (request (get_furniture "507f1f77bcf86cd799439011")
         (snd (request (create_furniture (parse_body Shop.desk_payload)
                          Shop.oid1) Shop.empty))) =
    {| status := 200;
       content :=
         Payload
           {| record :=
                {| name := "Oak Desk"; category := "Desks"; material := None;
                   price := 19999 # 100; stock := 0; width_cm := None;
                   depth_cm := None; height_cm := None; image_url := None |};
              id := "507f1f77bcf86cd799439011" |} |}.
Proof.
  assert (Hl : live Shop.empty) by shop_live.
  assert (Hwf : ObjectId.wf Shop.oid1) by reflexivity.
  assert (Hfresh : Shop.oid1 ∉ (_id <$> stored Shop.empty)) by by_computation.
  split; [exact Hl|]. split; [exact Hwf|]. split; [exact Hfresh|].
  exact (create_then_get Shop.empty Shop.desk_payload Shop.oid1 Hl Hwf Hfresh).
Defined.

(** C3: without a connection ([db] is [None]) the POST, PUT and DELETE
    handlers answer 500 and leave the process state as it was: no driver
    operation is issued. *)
Theorem offline_writes_fail (w : world) (item : FurnitureIn)
    (new_id : ObjectId.t) (item_id : string) (now : Z) :
  db w = None ->
  request (create_furniture item new_id) w =
    ({| status := 500; content := Detail "Database not available" |}, w) /\
  request (update_furniture item_id item now) w =
    ({| status := 500; content := Detail "Database not available" |}, w) /\
  request (delete_furniture item_id) w =
    ({| status := 500; content := Detail "Database not available" |}, w).
Proof.
  intros Hd. split; [|split].
  - unfold create_furniture, create_document. run.
    rewrite Furniture_dump, Hd. reflexivity.
  - unfold update_furniture. run. rewrite Hd. reflexivity.
  - unfold delete_furniture. run. rewrite Hd. reflexivity.
Qed.

Lemma offline_writes_fail_witness :
  db Shop.offline = None /\
  request (create_furniture Shop.desk Shop.oid1) Shop.offline =
    ({| status := 500; content := Detail "Database not available" |},
     Shop.offline) /\
  request (update_furniture "507f1f77bcf86cd799439011" Shop.desk 0) Shop.offline =
    ({| status := 500; content := Detail "Database not available" |},
     Shop.offline) /\
  request (delete_furniture "507f1f77bcf86cd799439011") Shop.offline =
    ({| status := 500; content := Detail "Database not available" |},
     Shop.offline).
Proof.
  split; [reflexivity|].
  exact (offline_writes_fail Shop.offline Shop.desk Shop.oid1
           "507f1f77bcf86cd799439011" 0 eq_refl).
Defined.

(** C4: for every [item_id] that is not the text of a twelve-byte
    identifier, [GET /api/furniture/{item_id}] raises nothing past the
    handler: the answer is a 404 or a 500 carrying a [{"detail": ...}]
    body, and the stored documents are untouched.  When [ObjectId] refuses
    the text, the answer is the 500 with the text of that refusal and the
    process state is unchanged. *)
Theorem get_furniture_invalid_id (w : world) (item_id : string) :
  (forall o, ObjectId.parse item_id = Some o -> ~ ObjectId.wf o) ->
  twelve_byte_ids w ->
  exists code msg,
    fst (request (get_furniture item_id) w) =
      {| status := code; content := Detail msg |} /\
    (code = 404 \/ code = 500)%Z /\
    stored (snd (request (get_furniture item_id) w)) = stored w /\
    (ObjectId.parse item_id = None ->
     code = 500%Z /\ msg = ObjectId.invalid_msg item_id /\
     snd (request (get_furniture item_id) w) = w).
Proof.
  intros Hbad Hids. unfold get_furniture. run.
  destruct (ObjectId.parse item_id) as [o|] eqn:Hp.
  - pose proof (Hbad o eq_refl) as Ho.
    unfold get_documents. run.
    destruct (db w) as [d|] eqn:Hd.
    + unfold Pymongo.find.
      destruct (Pymongo.fault d) as [fmsg|] eqn:Hf.
      * exists 500%Z, fmsg. cbn. unfold stored. cbn. rewrite Hd.
        split; [reflexivity|]. split; [right; reflexivity|].
        split; [reflexivity | discriminate].
      * rewrite filter_ok_id.
        rewrite (filter_id_absent o).
        { exists 404%Z, "Item not found". cbn. unfold stored. cbn. rewrite Hd.
          split; [reflexivity|]. split; [left; reflexivity|].
          split; [reflexivity | discriminate]. }
        unfold twelve_byte_ids, stored in Hids. rewrite Hd in Hids.
        intros Hin. apply list_elem_of_fmap in Hin as (doc & -> & Hin).
        rewrite Forall_forall in Hids. apply Ho, Hids, Hin.
    + exists 500%Z, "Database not available". cbn.
      split; [reflexivity|]. split; [right; reflexivity|].
      split; [reflexivity | discriminate].
  - exists 500%Z, (ObjectId.invalid_msg item_id). cbn.
    split; [reflexivity|]. split; [right; reflexivity|].
    split; [reflexivity|]. intros _. repeat split.
Qed.

Lemma get_furniture_invalid_id_witness :
  (forall o, ObjectId.parse "not-an-id" = Some o -> ~ ObjectId.wf o) /\
  twelve_byte_ids Shop.two_items /\
  exists code msg,
    fst (request (get_furniture "not-an-id") Shop.two_items) =
      {| status := code; content := Detail msg |} /\
    (code = 404 \/ code = 500)%Z /\
    stored (snd (request (get_furniture "not-an-id") Shop.two_items)) =
      stored Shop.two_items /\
    (ObjectId.parse "not-an-id" = None ->
     code = 500%Z /\ msg = ObjectId.invalid_msg "not-an-id" /\
     snd (request (get_furniture "not-an-id") Shop.two_items) = Shop.two_items).
Proof.
  assert (Hbad : forall o, ObjectId.parse "not-an-id" = Some o -> ~ ObjectId.wf o)
    by (intros o Ho; vm_compute in Ho; discriminate Ho).
  assert (Hids : twelve_byte_ids Shop.two_items) by by_computation.
  split; [exact Hbad|]. split; [exact Hids|].
  exact (get_furniture_invalid_id Shop.two_items "not-an-id" Hbad Hids).
Defined.

(** C5: on a store that answers and keeps identifiers distinct, [DELETE
    /api/furniture/{item_id}] issued twice in a row, [item_id] being a text
    of the identifier [I] of a stored record, returns 200
    [{"status": "deleted"}] and then 404; after the first call no document
    with that identifier is stored, and the other documents all are. *)
Theorem delete_twice (w : world) (item_id : string) (I : ObjectId.t) :
  live w -> unique_ids w -> I ∈ (_id <$> stored w) ->
  ObjectId.parse item_id = Some I ->
  fst (request (delete_furniture item_id) w) =
    {| status := 200; content := Payload StatusDeleted |} /\
  (I ∉ (_id <$> stored (snd (request (delete_furniture item_id) w)))) /\
  stored (snd (request (delete_furniture item_id) w)) =
    List.filter (fun d => negb (Pymongo.has_id I d)) (stored w) /\
  fst (request (delete_furniture item_id)
         (snd (request (delete_furniture item_id) w))) =
    {| status := 404; content := Detail "Item not found" |}.
Proof.
  intros (d & Hd & Hf) Hnd Hin Hp.
  unfold unique_ids, stored in Hnd, Hin. rewrite Hd in Hnd, Hin.
  rewrite (delete_furniture_live w d item_id I Hd Hf Hp).
  rewrite (remove_first_present I _ Hnd Hin). cbn [fst snd].
  set (docs' := List.filter _ _).
  assert (Hst : stored
                  {| db := Some (Pymongo.with_collection d "furniture" docs');
                     environ := environ w;
                     trace := trace w ++ [Pymongo.DeleteOne "furniture"] |}
                = docs').
  { unfold stored. cbn [db]. apply collection_with_collection. }
  split; [reflexivity|]. rewrite Hst.
  split; [apply filter_other_ids|].
  split; [unfold stored; rewrite Hd; reflexivity|].
  erewrite delete_furniture_live; [| reflexivity | exact Hf | exact Hp].
  rewrite collection_with_collection.
  rewrite (remove_first_absent I docs' (filter_other_ids I _)). reflexivity.
Qed.

Lemma delete_twice_witness :
  live Shop.two_items /\ unique_ids Shop.two_items /\
  (Shop.oid1 ∈ (_id <$> stored Shop.two_items)) /\
  ObjectId.parse "507f1f77bcf86cd799439011" = Some Shop.oid1 /\
  fst (request (delete_furniture "507f1f77bcf86cd799439011") Shop.two_items) =
    {| status := 200; content := Payload StatusDeleted |} /\
  (Shop.oid1 ∉ (_id <$> stored (snd (request
      (delete_furniture "507f1f77bcf86cd799439011") Shop.two_items)))) /\
  stored (snd (request (delete_furniture "507f1f77bcf86cd799439011")
                 Shop.two_items)) =
    List.filter (fun d => negb (Pymongo.has_id Shop.oid1 d))
      (stored Shop.two_items) /\
  fst (request (delete_furniture "507f1f77bcf86cd799439011")
         (snd (request (delete_furniture "507f1f77bcf86cd799439011")
                 Shop.two_items))) =
    {| status := 404; content := Detail "Item not found" |}.
Proof.
  assert (Hl : live Shop.two_items) by shop_live.
  assert (Hu : unique_ids Shop.two_items) by by_computation.
  assert (Hin : Shop.oid1 ∈ (_id <$> stored Shop.two_items)) by by_computation.
  assert (Hp : ObjectId.parse "507f1f77bcf86cd799439011" = Some Shop.oid1)
    by reflexivity.
  split; [exact Hl|]. split; [exact Hu|]. split; [exact Hin|].
  split; [exact Hp|].
  exact (delete_twice Shop.two_items "507f1f77bcf86cd799439011" Shop.oid1
           Hl Hu Hin Hp).
Defined.









(** C10: an empty [category] or [q] adds no condition to the filter, and
    the request is answered as if the parameter were absent. *)
Theorem list_furniture_empty_parameter (w : world) (c q : option string) :
  filter_of (Some "") q = filter_of None q /\
  filter_of c (Some "") = filter_of c None /\
  request (list_furniture (Some "") q) w = request (list_furniture None q) w /\
  request (list_furniture c (Some "")) w = request (list_furniture c None) w.
Proof. repeat split. Qed.

(** * Further properties of the handlers *)

(** ** The writing handlers in every state *)

Module CaseFacts.
Import BsonFacts RecordFacts ObjectIdFacts HandlerFacts CrudFacts.

(** [update_furniture], whatever the state and the arguments. *)
Lemma update_furniture_cases (w : world) (item_id : string)
    (item : FurnitureIn) (now : Z) :
  request (update_furniture item_id item now) w =
  match db w with
  | None => ({| status := 500; content := Detail "Database not available" |}, w)
  | Some d =>
      match ObjectId.parse item_id with
      | None =>
          ({| status := 500; content := Detail (ObjectId.invalid_msg item_id) |}, w)
      | Some o =>
          match Pymongo.fault d with
          | Some msg =>
              ({| status := 500; content := Detail msg |},
               logged (Pymongo.FindOneAndUpdate "furniture") w)
          | None =>
              match Pymongo.update_first {["_id" := Equals (VOid o)]}
                      (Pymongo.set_fields
                         (<["updated_at" := VDate now]> (model_dump item)))
                      (Pymongo.collection d "furniture") with
              | Some (_, docs') =>
                  ({| status := 200; content := Payload StatusOk |},
                   {| db := Some (Pymongo.with_collection d "furniture" docs');
                      environ := environ w;
                      trace := trace w ++ [Pymongo.FindOneAndUpdate "furniture"] |})
              | None =>
                  ({| status := 404; content := Detail "Item not found" |},
                   logged (Pymongo.FindOneAndUpdate "furniture") w)
              end
          end
      end
  end.
Proof.
  destruct (db w) as [d|] eqn:Hd.
  - destruct (ObjectId.parse item_id) as [o|] eqn:Hp.
    + destruct (Pymongo.fault d) as [msg|] eqn:Hf.
      * unfold update_furniture. run. rewrite Hd, Hp.
        unfold Pymongo.find_one_and_update, logged. rewrite Hf, Hd. reflexivity.
      * rewrite (update_furniture_live w d item_id o item now Hd Hf Hp).
        reflexivity.
    + unfold update_furniture. run. rewrite Hd, Hp. reflexivity.
  - unfold update_furniture. run. rewrite Hd. reflexivity.
Qed.

(** [delete_furniture], whatever the state and the argument. *)
Lemma delete_furniture_cases (w : world) (item_id : string) :
  request (delete_furniture item_id) w =
  match db w with
  | None => ({| status := 500; content := Detail "Database not available" |}, w)
  | Some d =>
      match ObjectId.parse item_id with
      | None =>
          ({| status := 500; content := Detail (ObjectId.invalid_msg item_id) |}, w)
      | Some o =>
          match Pymongo.fault d with
          | Some msg =>
              ({| status := 500; content := Detail msg |},
               logged (Pymongo.DeleteOne "furniture") w)
          | None =>
              match Pymongo.remove_first {["_id" := Equals (VOid o)]}
                      (Pymongo.collection d "furniture") with
              | Some docs' =>
                  ({| status := 200; content := Payload StatusDeleted |},
                   {| db := Some (Pymongo.with_collection d "furniture" docs');
                      environ := environ w;
                      trace := trace w ++ [Pymongo.DeleteOne "furniture"] |})
              | None =>
                  ({| status := 404; content := Detail "Item not found" |},
                   logged (Pymongo.DeleteOne "furniture") w)
              end
          end
      end
  end.
Proof.
  destruct (db w) as [d|] eqn:Hd.
  - destruct (ObjectId.parse item_id) as [o|] eqn:Hp.
    + destruct (Pymongo.fault d) as [msg|] eqn:Hf.
      * unfold delete_furniture. run. rewrite Hd, Hp.
        unfold Pymongo.delete_one, logged. rewrite Hf, Hd. reflexivity.
      * rewrite (delete_furniture_live w d item_id o Hd Hf Hp). reflexivity.
    + unfold delete_furniture. run. rewrite Hd, Hp. reflexivity.
  - unfold delete_furniture. run. rewrite Hd. reflexivity.
Qed.

(** What [update_first] does to a collection it finds a match in. *)
Lemma update_first_Some (f : gmap string cond) (g : document -> document)
    (docs docs' : list document) (hit : document) :
  Pymongo.update_first f g docs = Some (hit, docs') ->
  exists pre doc post,
    docs = pre ++ doc :: post /\ Forall (fun d => matches f d = false) pre /\
    matches f doc = true /\ hit = g doc /\ docs' = pre ++ g doc :: post.
Proof.
  revert docs' hit. induction docs as [|d docs IH]; intros docs' hit H.
  - discriminate H.
  - cbn [Pymongo.update_first] in H. destruct (matches f d) eqn:Hm.
    + injection H as <- <-. exists [], d, docs. repeat split; auto.
    + destruct (Pymongo.update_first f g docs) as [[hit0 rest]|] eqn:Hu;
        [|discriminate H].
      injection H as <- <-.
      destruct (IH rest hit0 eq_refl) as (pre & doc & post & -> & Hpre & Hdoc & -> & ->).
      exists (d :: pre), doc, post. repeat split; auto.
Qed.

(** What [remove_first] does to a collection it finds a match in. *)
Lemma remove_first_Some (f : gmap string cond) (docs docs' : list document) :
  Pymongo.remove_first f docs = Some docs' ->
  exists pre doc post,
    docs = pre ++ doc :: post /\ Forall (fun d => matches f d = false) pre /\
    matches f doc = true /\ docs' = pre ++ post.
Proof.
  revert docs'. induction docs as [|d docs IH]; intros docs' H.
  - discriminate H.
  - cbn [Pymongo.remove_first] in H. destruct (matches f d) eqn:Hm.
    + injection H as <-. exists [], d, docs. repeat split; auto.
    + destruct (Pymongo.remove_first f docs) as [rest|] eqn:Hu; [|discriminate H].
      injection H as <-.
      destruct (IH rest eq_refl) as (pre & doc & post & -> & Hpre & Hdoc & ->).
      exists (d :: pre), doc, post. repeat split; auto.
Qed.

Lemma stored_with_collection (d : Pymongo.Database)
    (docs : list document) (e : gmap string string) (t : list Pymongo.call) :
  stored {| db := Some (Pymongo.with_collection d "furniture" docs);
            environ := e; trace := t |} = docs.
Proof. unfold stored. cbn [db]. apply collection_with_collection. Qed.








(** The document a PUT writes is served as the body of the PUT. *)
Lemma to_out_updated (B : FurnitureIn) (now : Z) (doc : document) :
  to_out (Pymongo.set_fields (<["updated_at" := VDate now]> (model_dump B)) doc) =
  inr {| record := B; id := ObjectId.to_str (_id doc) |}.
Proof.
  unfold Pymongo.set_fields. apply to_out_dump. intros k [v Hk].
  rewrite Hk. apply lookup_union_Some_l.
  destruct (decide (k = "updated_at")) as [->|Hne]; [discriminate Hk|].
  rewrite lookup_insert_ne by congruence. exact Hk.
Qed.

Lemma update_first_ids (f : gmap string cond) (upd : gmap string value)
    (docs docs' : list document) (hit : document) :
  Pymongo.update_first f (Pymongo.set_fields upd) docs = Some (hit, docs') ->
  _id <$> docs' = _id <$> docs.
Proof.
  intros Hu.
  apply update_first_Some in Hu as (pre & doc & post & -> & _ & _ & _ & ->).
  rewrite !fmap_app, !fmap_cons. reflexivity.
Qed.

Lemma twelve_bytes_fmap (docs : list document) :
  Forall (fun d => ObjectId.wf (_id d)) docs <-> Forall ObjectId.wf (_id <$> docs).
Proof. rewrite Forall_fmap. reflexivity. Qed.

(** Validation raises one exception only. *)
Lemma to_out_raises (doc : document) (e : exn) :
  to_out doc = inl e -> e = validation_error "FurnitureOut".
Proof.
  unfold to_out, FurnitureOut_init.
  destruct (as_str _); [|intros [= <-]; reflexivity].
  destruct (FurnitureIn_fields _ _ _ _ _ _ _ _ _); [discriminate|].
  intros [= <-]. reflexivity.
Qed.

(** [get_furniture], whatever the state and the argument. *)
Lemma get_furniture_cases (w : world) (item_id : string) :
  request (get_furniture item_id) w =
  match ObjectId.parse item_id with
  | None =>
      ({| status := 500; content := Detail (ObjectId.invalid_msg item_id) |}, w)
  | Some o =>
      match db w with
      | None =>
          ({| status := 500; content := Detail "Database not available" |}, w)
      | Some d =>
          (match Pymongo.fault d with
           | Some msg => {| status := 500; content := Detail msg |}
           | None =>
               match List.filter (Pymongo.has_id o)
                       (Pymongo.collection d "furniture") with
               | [] => {| status := 404; content := Detail "Item not found" |}
               | doc :: _ =>
                   match out_of doc with
                   | Some out => {| status := 200; content := Payload out |}
                   | None =>
                       {| status := 500;
                          content := Detail "validation error for FurnitureOut" |}
                   end
               end
           end,
           logged (Pymongo.Find "furniture") w)
      end
  end.
Proof.
  unfold get_furniture. run.
  destruct (ObjectId.parse item_id) as [o|]; [|reflexivity].
  unfold get_documents. run.
  destruct (db w) as [d|] eqn:Hd; [|reflexivity].
  unfold Pymongo.find, logged. rewrite Hd.
  destruct (Pymongo.fault d); [reflexivity|].
  rewrite filter_ok_id.
  rewrite (filter_ext_in (matches {["_id" := Equals (VOid o)]}) (Pymongo.has_id o))
    by (intros doc; apply matches_id).
  destruct (List.filter (Pymongo.has_id o) (Pymongo.collection d "furniture"))
    as [|doc rest]; [reflexivity|].
  cbn [Pymongo.capped firstn]. run. unfold out_of.
  destruct (to_out doc) as [e|out] eqn:Hout; [|reflexivity].
  rewrite (to_out_raises doc e Hout). reflexivity.
Qed.

(** [create_furniture], whatever the state and the arguments. *)
Lemma create_furniture_cases (w : world) (item : FurnitureIn)
    (new_id : ObjectId.t) :
  request (create_furniture item new_id) w =
  match db w with
  | None => ({| status := 500; content := Detail "Database not available" |}, w)
  | Some d =>
      match Pymongo.fault d with
      | Some msg =>
          ({| status := 500; content := Detail msg |},
           logged (Pymongo.InsertOne "furniture") w)
      | None =>
          if existsb (Pymongo.has_id new_id) (Pymongo.collection d "furniture")
          then ({| status := 500; content := Detail "E11000 duplicate key error" |},
                logged (Pymongo.InsertOne "furniture") w)
          else ({| status := 200; content := Payload (ObjectId.to_str new_id) |},
                {| db := Some (Pymongo.with_collection d "furniture"
                                 (Pymongo.collection d "furniture" ++
                                  [{| _id := new_id; fields := model_dump item |}]));
                   environ := environ w;
                   trace := trace w ++ [Pymongo.InsertOne "furniture"] |})
      end
  end.
Proof.
  unfold create_furniture, create_document. run. rewrite Furniture_dump.
  destruct (db w) as [d|] eqn:Hd; [|reflexivity].
  unfold Pymongo.insert_one, logged. rewrite Hd.
  destruct (Pymongo.fault d); [reflexivity|].
  destruct (existsb _ _); reflexivity.
Qed.

(** The first document with a given identifier, among distinct ones. *)
Lemma filter_has_id_unique (o : ObjectId.t) (pre post : list document)
    (doc : document) :
  NoDup (_id <$> (pre ++ doc :: post)) -> _id doc = o ->
  List.filter (Pymongo.has_id o) (pre ++ doc :: post) = [doc].
Proof.
  intros Hnd Hdoc. rewrite fmap_app, fmap_cons in Hnd.
  apply NoDup_app in Hnd as (_ & Hpre & Hpost).
  apply NoDup_cons in Hpost as [Hpost _].
  rewrite List.filter_app. cbn [List.filter]. unfold Pymongo.has_id at 2.
  rewrite bool_decide_true by exact Hdoc.
  assert (Hf : forall l, o ∉ (_id <$> l) -> List.filter (Pymongo.has_id o) l = []).
  { induction l as [|x l IH]; [reflexivity|].
    rewrite fmap_cons, not_elem_of_cons. intros [Hne Hl]. cbn [List.filter].
    unfold Pymongo.has_id at 1. rewrite bool_decide_false by congruence.
    apply IH. exact Hl. }
  rewrite (Hf pre), (Hf post); [reflexivity | |].
  - rewrite <- Hdoc. exact Hpost.
  - rewrite <- Hdoc. intros Hin. apply (Hpre _ Hin). apply elem_of_cons.
    left. reflexivity.
Qed.

Lemma filter_has_id_absent (o : ObjectId.t) (docs : list document) :
  o ∉ (_id <$> docs) -> List.filter (Pymongo.has_id o) docs = [].
Proof.
  induction docs as [|x l IH]; [reflexivity|].
  rewrite fmap_cons, not_elem_of_cons. intros [Hne Hl]. cbn [List.filter].
  unfold Pymongo.has_id at 1. rewrite bool_decide_false by congruence.
  apply IH. exact Hl.
Qed.


Lemma existsb_has_id_absent (o : ObjectId.t) (docs : list document) :
  existsb (Pymongo.has_id o) docs = false -> o ∉ (_id <$> docs).
Proof.
  induction docs as [|d docs IH]; [intros _; rewrite fmap_nil; apply not_elem_of_nil|].
  cbn [existsb]. intros H. apply orb_false_iff in H as [Hd Hrest].
  rewrite fmap_cons, not_elem_of_cons. split; [|apply IH; exact Hrest].
  unfold Pymongo.has_id in Hd. apply bool_decide_eq_false in Hd. congruence.
Qed.

(** A handler closed by [except Exception] answers 200 or 500. *)
Lemma try_as_500_answers {A} (m : M A) (w : world) :
  (exists a, fst (request (try_except m as_500) w) =
               {| status := 200; content := Payload a |}) \/
  (exists msg, fst (request (try_except m as_500) w) =
                 {| status := 500; content := Detail msg |}).
Proof.
  unfold request, try_except, as_500, mraise, raise, serve.
  destruct (m w) as [[e|a] w']; cbn; eauto.
Qed.

End CaseFacts.

Import ObjectIdFacts RecordFacts CaseFacts.



(** X2: on a store that answers, DELETE for an identifier no stored
    document has answers 404 and leaves the database as it was. *)
Theorem delete_missing (w : world) (item_id : string) (I : ObjectId.t) :
  live w -> ObjectId.parse item_id = Some I -> I ∉ (_id <$> stored w) ->
  fst (request (delete_furniture item_id) w) =
    {| status := 404; content := Detail "Item not found" |} /\
  db (snd (request (delete_furniture item_id) w)) = db w.
Proof.
  intros (d & Hd & Hf) Hp Hout. unfold stored in Hout. rewrite Hd in Hout.
  rewrite delete_furniture_cases, Hd, Hp, Hf.
  rewrite (remove_first_absent I _ Hout). split; [reflexivity | exact Hd].
Qed.

Lemma delete_missing_witness :
  live Shop.two_items /\
  ObjectId.parse "507f1f77bcf86cd799439013" = Some Shop.oid3 /\
  (Shop.oid3 ∉ (_id <$> stored Shop.two_items)) /\
  fst (request (delete_furniture "507f1f77bcf86cd799439013") Shop.two_items) =
    {| status := 404; content := Detail "Item not found" |} /\
  db (snd (request (delete_furniture "507f1f77bcf86cd799439013")
             Shop.two_items)) = db Shop.two_items.
Proof.
  assert (Hl : live Shop.two_items) by shop_live.
  assert (Hp : ObjectId.parse "507f1f77bcf86cd799439013" = Some Shop.oid3)
    by reflexivity.
  assert (Hout : Shop.oid3 ∉ (_id <$> stored Shop.two_items)) by by_computation.
  split; [exact Hl|]. split; [exact Hp|]. split; [exact Hout|].
  exact (delete_missing Shop.two_items "507f1f77bcf86cd799439013" Shop.oid3
           Hl Hp Hout).
Defined.

(** X3: when the connected store fails, PUT and DELETE answer 500 with the
    text of the driver's exception and the database is as it was. *)
Theorem write_on_failing_store (w : world) (d : Pymongo.Database)
    (msg item_id : string) (o : ObjectId.t) (item : FurnitureIn) (now : Z) :
  db w = Some d -> Pymongo.fault d = Some msg ->
  ObjectId.parse item_id = Some o ->
  fst (request (update_furniture item_id item now) w) =
    {| status := 500; content := Detail msg |} /\
  db (snd (request (update_furniture item_id item now) w)) = db w /\
  fst (request (delete_furniture item_id) w) =
    {| status := 500; content := Detail msg |} /\
  db (snd (request (delete_furniture item_id) w)) = db w.
Proof.
  intros Hd Hf Hp.
  rewrite update_furniture_cases, delete_furniture_cases, Hd, Hp, Hf.
  repeat split; exact Hd.
Qed.

Lemma write_on_failing_store_witness :
  db Shop.unreachable =
    Some {| Pymongo.name := Some "shop";
            Pymongo.fault :=
              Some "localhost:27017: [Errno 111] Connection refused";
            Pymongo.collections := ∅ |} /\
  Pymongo.fault {| Pymongo.name := Some "shop";
                   Pymongo.fault :=
                     Some "localhost:27017: [Errno 111] Connection refused";
                   Pymongo.collections := ∅ |} =
    Some "localhost:27017: [Errno 111] Connection refused" /\
  ObjectId.parse "507f1f77bcf86cd799439011" = Some Shop.oid1 /\
  fst (request (update_furniture "507f1f77bcf86cd799439011" Shop.desk 3)
         Shop.unreachable) =
    {| status := 500;
       content := Detail "localhost:27017: [Errno 111] Connection refused" |} /\
  db (snd (request (update_furniture "507f1f77bcf86cd799439011" Shop.desk 3)
             Shop.unreachable)) = db Shop.unreachable /\
  fst (request (delete_furniture "507f1f77bcf86cd799439011") Shop.unreachable) =
    {| status := 500;
       content := Detail "localhost:27017: [Errno 111] Connection refused" |} /\
  db (snd (request (delete_furniture "507f1f77bcf86cd799439011")
             Shop.unreachable)) = db Shop.unreachable.
Proof.
  split; [reflexivity|]. split; [reflexivity|]. split; [reflexivity|].
  exact (write_on_failing_store Shop.unreachable _ _
           "507f1f77bcf86cd799439011" Shop.oid1 Shop.desk 3
           eq_refl eq_refl eq_refl).
Defined.

(** X4: PUT never adds, removes, reorders or re-identifies a document: the
    sequence of stored identifiers is the same after the request, whatever
    the state, the path and the body. *)
Theorem update_keeps_identifiers (w : world) (item_id : string)
    (item : FurnitureIn) (now : Z) :
  _id <$> stored (snd (request (update_furniture item_id item now) w)) =
  _id <$> stored w.
Proof.
  rewrite update_furniture_cases.
  destruct (db w) as [d|] eqn:Hd; [|reflexivity].
  destruct (ObjectId.parse item_id) as [o|]; [|reflexivity].
  destruct (Pymongo.fault d); [reflexivity|].
  destruct (Pymongo.update_first _ _ _) as [[hit docs']|] eqn:Hu; [|reflexivity].
  cbn [snd]. rewrite stored_with_collection. unfold stored. rewrite Hd.
  apply (update_first_ids _ _ _ _ _ Hu).
Qed.

(** X5: DELETE removes at most one document, and only one whose identifier
    the path denotes: either the answer is 200 and exactly that document
    is gone, or the answer is an error and the stored documents are as
    they were. *)
Theorem delete_removes_at_most_one (w : world) (item_id : string) :
  (status (fst (request (delete_furniture item_id) w)) = 200%Z /\
   exists pre doc post,
     stored w = pre ++ doc :: post /\
     stored (snd (request (delete_furniture item_id) w)) = pre ++ post /\
     ObjectId.parse item_id = Some (_id doc)) \/
  (status (fst (request (delete_furniture item_id) w)) <> 200%Z /\
   stored (snd (request (delete_furniture item_id) w)) = stored w).
Proof.
  rewrite delete_furniture_cases.
  destruct (db w) as [d|] eqn:Hd; [|right; split; [discriminate | reflexivity]].
  destruct (ObjectId.parse item_id) as [o|];
    [|right; split; [discriminate | reflexivity]].
  destruct (Pymongo.fault d); [right; split; [discriminate | reflexivity]|].
  destruct (Pymongo.remove_first _ _) as [docs'|] eqn:Hr;
    [|right; split; [discriminate | reflexivity]].
  left. split; [reflexivity|]. cbn [snd]. rewrite stored_with_collection.
  unfold stored. rewrite Hd.
  apply remove_first_Some in Hr as (pre & doc & post & -> & _ & Hm & ->).
  exists pre, doc, post. split; [reflexivity|]. split; [reflexivity|].
  rewrite matches_id in Hm. unfold Pymongo.has_id in Hm.
  apply bool_decide_eq_true in Hm. rewrite Hm. reflexivity.
Qed.


(** X7: PUT and DELETE have three answers only: 200 with their status
    body, 404 "Item not found", or 500 with a detail text.  No exception
    leaves the handler, whatever the state, the path and the body. *)
Theorem write_answers (w : world) (item_id : string) (item : FurnitureIn)
    (now : Z) :
  (fst (request (update_furniture item_id item now) w) =
     {| status := 200; content := Payload StatusOk |} \/
   fst (request (update_furniture item_id item now) w) =
     {| status := 404; content := Detail "Item not found" |} \/
   exists msg, fst (request (update_furniture item_id item now) w) =
                 {| status := 500; content := Detail msg |}) /\
  (fst (request (delete_furniture item_id) w) =
     {| status := 200; content := Payload StatusDeleted |} \/
   fst (request (delete_furniture item_id) w) =
     {| status := 404; content := Detail "Item not found" |} \/
   exists msg, fst (request (delete_furniture item_id) w) =
                 {| status := 500; content := Detail msg |}).
Proof.
  rewrite update_furniture_cases, delete_furniture_cases.
  destruct (db w) as [d|]; [|split; right; right; eexists; reflexivity].
  destruct (ObjectId.parse item_id) as [o|];
    [|split; right; right; eexists; reflexivity].
  destruct (Pymongo.fault d); [split; right; right; eexists; reflexivity|].
  split.
  - destruct (Pymongo.update_first {["_id" := Equals (VOid o)]}
                (Pymongo.set_fields (<["updated_at" := VDate now]> (model_dump item)))
                (Pymongo.collection d "furniture")) as [[hit docs']|];
      [left | right; left]; reflexivity.
  - destruct (Pymongo.remove_first {["_id" := Equals (VOid o)]}
                (Pymongo.collection d "furniture")) as [docs'|];
      [left | right; left]; reflexivity.
Qed.

(** X8: PUT and DELETE issue at most one driver operation, on the
    furniture collection, and none at all without a connection or when
    [ObjectId] refuses the path text. *)
Theorem write_trace (w : world) (item_id : string) (item : FurnitureIn)
    (now : Z) :
  trace (snd (request (update_furniture item_id item now) w)) =
    trace w ++
    match db w, ObjectId.parse item_id with
    | Some _, Some _ => [Pymongo.FindOneAndUpdate "furniture"]
    | _, _ => []
    end /\
  trace (snd (request (delete_furniture item_id) w)) =
    trace w ++
    match db w, ObjectId.parse item_id with
    | Some _, Some _ => [Pymongo.DeleteOne "furniture"]
    | _, _ => []
    end.
Proof.
  rewrite update_furniture_cases, delete_furniture_cases.
  destruct (db w) as [d|]; [|rewrite app_nil_r; split; reflexivity].
  destruct (ObjectId.parse item_id) as [o|];
    [|rewrite app_nil_r; split; reflexivity].
  destruct (Pymongo.fault d); [split; reflexivity|].
  split.
  - destruct (Pymongo.update_first {["_id" := Equals (VOid o)]}
                (Pymongo.set_fields (<["updated_at" := VDate now]> (model_dump item)))
                (Pymongo.collection d "furniture")) as [[hit docs']|];
      reflexivity.
  - destruct (Pymongo.remove_first {["_id" := Equals (VOid o)]}
                (Pymongo.collection d "furniture")) as [docs'|];
      reflexivity.
Qed.

(** X9: PUT and DELETE keep the store consistent: when the stored
    identifiers are distinct and twelve bytes long and every stored
    document is a furniture record, the same holds after the request,
    whatever its arguments and its outcome. *)
Theorem write_keeps_store_consistent (w : world) (item_id : string)
    (item : FurnitureIn) (now : Z) :
  unique_ids w -> twelve_byte_ids w -> well_formed w ->
  (unique_ids (snd (request (update_furniture item_id item now) w)) /\
   twelve_byte_ids (snd (request (update_furniture item_id item now) w)) /\
   well_formed (snd (request (update_furniture item_id item now) w))) /\
  (unique_ids (snd (request (delete_furniture item_id) w)) /\
   twelve_byte_ids (snd (request (delete_furniture item_id) w)) /\
   well_formed (snd (request (delete_furniture item_id) w))).
Proof.
  intros Hu Ht Hw.
  rewrite update_furniture_cases, delete_furniture_cases.
  destruct (db w) as [d|] eqn:Hd; [|repeat split; assumption].
  destruct (ObjectId.parse item_id) as [o|]; [|repeat split; assumption].
  destruct (Pymongo.fault d); [repeat split; assumption|].
  unfold unique_ids, twelve_byte_ids, well_formed in *.
  assert (Hst : stored w = Pymongo.collection d "furniture")
    by (unfold stored; rewrite Hd; reflexivity).
  rewrite Hst in Hu, Ht, Hw.
  split.
  - destruct (Pymongo.update_first {["_id" := Equals (VOid o)]}
                (Pymongo.set_fields (<["updated_at" := VDate now]> (model_dump item)))
                (Pymongo.collection d "furniture")) as [[hit docs']|] eqn:Hup;
      cbn [snd]; [|rewrite logged_stored, Hst; repeat split; assumption].
    rewrite stored_with_collection.
    pose proof (update_first_ids _ _ _ _ _ Hup) as Hids.
    split; [rewrite Hids; exact Hu|].
    split; [apply twelve_bytes_fmap; rewrite Hids; apply twelve_bytes_fmap; exact Ht|].
    apply update_first_Some in Hup as (pre & doc & post & Hdocs & _ & _ & _ & ->).
    rewrite Hdocs in Hw. apply Forall_app in Hw as [Hpre Hw].
    apply Forall_cons in Hw as [_ Hpost].
    apply Forall_app. split; [exact Hpre|]. apply Forall_cons. split; [|exact Hpost].
    unfold out_of. rewrite to_out_updated. eexists; reflexivity.
  - destruct (Pymongo.remove_first {["_id" := Equals (VOid o)]}
                (Pymongo.collection d "furniture")) as [docs'|] eqn:Hrm;
      cbn [snd]; [|rewrite logged_stored, Hst; repeat split; assumption].
    rewrite stored_with_collection.
    apply remove_first_Some in Hrm as (pre & doc & post & Hdocs & _ & _ & ->).
    rewrite Hdocs in Hu, Ht, Hw.
    split.
    { rewrite fmap_app, fmap_cons in Hu. rewrite fmap_app.
      apply NoDup_app in Hu as (Hn1 & Hn2 & Hn3).
      apply NoDup_cons in Hn3 as [_ Hn3].
      apply NoDup_app. split; [exact Hn1|]. split; [|exact Hn3].
      intros x Hx Hx'. apply (Hn2 x Hx). apply elem_of_cons. right. exact Hx'. }
    split.
    { apply Forall_app in Ht as [Hpre Ht]. apply Forall_cons in Ht as [_ Hpost].
      apply Forall_app. split; assumption. }
    apply Forall_app in Hw as [Hpre Hw]. apply Forall_cons in Hw as [_ Hpost].
    apply Forall_app. split; assumption.
Qed.

Lemma write_keeps_store_consistent_witness :
  unique_ids Shop.two_items /\ twelve_byte_ids Shop.two_items /\
  well_formed Shop.two_items /\
  (unique_ids (snd (request (update_furniture "507f1f77bcf86cd799439012"
                               Shop.table 9) Shop.two_items)) /\
   twelve_byte_ids (snd (request (update_furniture "507f1f77bcf86cd799439012"
                                    Shop.table 9) Shop.two_items)) /\
   well_formed (snd (request (update_furniture "507f1f77bcf86cd799439012"
                                Shop.table 9) Shop.two_items))) /\
  (unique_ids (snd (request (delete_furniture "507f1f77bcf86cd799439012")
                      Shop.two_items)) /\
   twelve_byte_ids (snd (request (delete_furniture "507f1f77bcf86cd799439012")
                           Shop.two_items)) /\
   well_formed (snd (request (delete_furniture "507f1f77bcf86cd799439012")
                       Shop.two_items))).
Proof.
  assert (Hu : unique_ids Shop.two_items) by by_computation.
  assert (Ht : twelve_byte_ids Shop.two_items) by by_computation.
  assert (Hw : well_formed Shop.two_items) by by_computation.
  split; [exact Hu|]. split; [exact Ht|]. split; [exact Hw|].
  exact (write_keeps_store_consistent Shop.two_items
           "507f1f77bcf86cd799439012" Shop.table 9 Hu Ht Hw).
Defined.

(** X10: on a store that answers, GET for an identifier no stored document
    has answers 404 "Item not found". *)
Theorem get_missing (w : world) (item_id : string) (I : ObjectId.t) :
  live w -> ObjectId.parse item_id = Some I -> I ∉ (_id <$> stored w) ->
  fst (request (get_furniture item_id) w) =
    {| status := 404; content := Detail "Item not found" |}.
Proof.
  intros (d & Hd & Hf) Hp Hout. unfold stored in Hout. rewrite Hd in Hout.
  rewrite get_furniture_cases, Hp, Hd, Hf.
  rewrite (filter_has_id_absent I _ Hout). reflexivity.
Qed.

Lemma get_missing_witness :
  live Shop.two_items /\
  ObjectId.parse "507f1f77bcf86cd799439013" = Some Shop.oid3 /\
  (Shop.oid3 ∉ (_id <$> stored Shop.two_items)) /\
  fst (request (get_furniture "507f1f77bcf86cd799439013") Shop.two_items) =
    {| status := 404; content := Detail "Item not found" |}.
Proof.
  assert (Hl : live Shop.two_items) by shop_live.
  assert (Hp : ObjectId.parse "507f1f77bcf86cd799439013" = Some Shop.oid3)
    by reflexivity.
  assert (Hout : Shop.oid3 ∉ (_id <$> stored Shop.two_items)) by by_computation.
  split; [exact Hl|]. split; [exact Hp|]. split; [exact Hout|].
  exact (get_missing Shop.two_items "507f1f77bcf86cd799439013" Shop.oid3
           Hl Hp Hout).
Defined.

(** X11: the list and the single-record endpoint agree.  On a consistent
    store that answers, every record [GET /api/furniture] returns can be
    fetched by its [id]: [GET /api/furniture/{id}] answers 200 with that
    very record. *)
Theorem listed_records_can_be_fetched (w : world) (c q : option string) :
  live w -> well_formed w -> unique_ids w -> twelve_byte_ids w ->
  q_accepted q ->
  exists outs,
    fst (request (list_furniture c q) w) =
      {| status := 200; content := Payload outs |} /\
    forall o, In o outs ->
      fst (request (get_furniture (id o)) w) =
        {| status := 200; content := Payload o |}.
Proof.
  intros Hl Hw Hu Ht Hq. eexists. split.
  { rewrite (list_furniture_live w c q Hl Hw Hq). reflexivity. }
  intros o Ho. apply filter_In in Ho as [Ho _].
  apply list_elem_of_In in Ho. unfold records in Ho.
  apply list_elem_of_omap in Ho as (doc & Hdoc & Hout).
  destruct Hl as (d & Hd & Hf).
  unfold unique_ids, twelve_byte_ids, stored in *. rewrite Hd in *.
  apply list_elem_of_split in Hdoc as (pre & post & Hsplit).
  rewrite (out_of_id doc o Hout), get_furniture_cases.
  rewrite parse_to_str, Hd, Hf.
  - rewrite Hsplit in Hu |- *.
    rewrite (filter_has_id_unique (_id doc) pre post doc Hu eq_refl), Hout.
    reflexivity.
  - rewrite Forall_forall in Ht. apply Ht. rewrite Hsplit.
    apply list_elem_of_In, in_elt.
Qed.

Lemma listed_records_can_be_fetched_witness :
  live Shop.four_items /\ well_formed Shop.four_items /\
  unique_ids Shop.four_items /\ twelve_byte_ids Shop.four_items /\
  q_accepted (Some "tab") /\
  exists outs,
    fst (request (list_furniture (Some "Tables") (Some "tab")) Shop.four_items) =
      {| status := 200; content := Payload outs |} /\
    forall o, In o outs ->
      fst (request (get_furniture (id o)) Shop.four_items) =
        {| status := 200; content := Payload o |}.
Proof.
  assert (Hl : live Shop.four_items) by shop_live.
  assert (Hw : well_formed Shop.four_items) by by_computation.
  assert (Hu : unique_ids Shop.four_items) by by_computation.
  assert (Ht : twelve_byte_ids Shop.four_items) by by_computation.
  assert (Hq : q_accepted (Some "tab")) by (eexists; vm_compute; reflexivity).
  split; [exact Hl|]. split; [exact Hw|]. split; [exact Hu|].
  split; [exact Ht|]. split; [exact Hq|].
  exact (listed_records_can_be_fetched Shop.four_items (Some "Tables")
           (Some "tab") Hl Hw Hu Ht Hq).
Defined.

(** X12: a deleted record cannot be fetched any more.  On a store that
    answers and keeps identifiers distinct, after a DELETE that answered
    200 the GET for the same path answers 404. *)
Theorem delete_then_get (w : world) (item_id : string) (I : ObjectId.t) :
  live w -> unique_ids w -> I ∈ (_id <$> stored w) ->
  ObjectId.parse item_id = Some I ->
  fst (request (delete_furniture item_id) w) =
    {| status := 200; content := Payload StatusDeleted |} /\
  fst (request (get_furniture item_id)
         (snd (request (delete_furniture item_id) w))) =
    {| status := 404; content := Detail "Item not found" |}.
Proof.
  intros (d & Hd & Hf) Hnd Hin Hp.
  unfold unique_ids, stored in Hnd, Hin. rewrite Hd in Hnd, Hin.
  rewrite (delete_furniture_live w d item_id I Hd Hf Hp).
  rewrite (remove_first_present I _ Hnd Hin). cbn [fst snd].
  split; [reflexivity|].
  rewrite get_furniture_cases, Hp. cbn [db].
  change (Pymongo.fault (Pymongo.with_collection d "furniture"
            (List.filter (fun d0 => negb (Pymongo.has_id I d0))
               (Pymongo.collection d "furniture"))))
    with (Pymongo.fault d).
  rewrite Hf.
  rewrite (collection_with_collection d "furniture").
  rewrite (filter_has_id_absent I _ (filter_other_ids I _)). reflexivity.
Qed.

Lemma delete_then_get_witness :
  live Shop.two_items /\ unique_ids Shop.two_items /\
  (Shop.oid1 ∈ (_id <$> stored Shop.two_items)) /\
  ObjectId.parse "507f1f77bcf86cd799439011" = Some Shop.oid1 /\
  fst (request (delete_furniture "507f1f77bcf86cd799439011") Shop.two_items) =
    {| status := 200; content := Payload StatusDeleted |} /\
  fst (request (get_furniture "507f1f77bcf86cd799439011")
         (snd (request (delete_furniture "507f1f77bcf86cd799439011")
                 Shop.two_items))) =
    {| status := 404; content := Detail "Item not found" |}.
Proof.
  assert (Hl : live Shop.two_items) by shop_live.
  assert (Hu : unique_ids Shop.two_items) by by_computation.
  assert (Hin : Shop.oid1 ∈ (_id <$> stored Shop.two_items)) by by_computation.
  assert (Hp : ObjectId.parse "507f1f77bcf86cd799439011" = Some Shop.oid1)
    by reflexivity.
  split; [exact Hl|]. split; [exact Hu|]. split; [exact Hin|].
  split; [exact Hp|].
  exact (delete_then_get Shop.two_items "507f1f77bcf86cd799439011" Shop.oid1
           Hl Hu Hin Hp).
Defined.





(** X15: POST keeps the store consistent: when the stored identifiers are
    distinct and twelve bytes long and every stored document is a furniture
    record, the same holds after a POST whose generated identifier has
    twelve bytes, whatever the body and the outcome. *)
Theorem create_keeps_store_consistent (w : world) (item : FurnitureIn)
    (new_id : ObjectId.t) :
  unique_ids w -> twelve_byte_ids w -> well_formed w -> ObjectId.wf new_id ->
  unique_ids (snd (request (create_furniture item new_id) w)) /\
  twelve_byte_ids (snd (request (create_furniture item new_id) w)) /\
  well_formed (snd (request (create_furniture item new_id) w)).
Proof.
  intros Hu Ht Hw Hnew. rewrite create_furniture_cases.
  destruct (db w) as [d|] eqn:Hd; [|repeat split; assumption].
  destruct (Pymongo.fault d); [repeat split; assumption|].
  destruct (existsb (Pymongo.has_id new_id) (Pymongo.collection d "furniture"))
    eqn:Hex; [repeat split; assumption|].
  apply existsb_has_id_absent in Hex.
  unfold unique_ids, twelve_byte_ids, well_formed in *. cbn [snd].
  rewrite stored_with_collection.
  assert (Hst : stored w = Pymongo.collection d "furniture")
    by (unfold stored; rewrite Hd; reflexivity).
  rewrite Hst in Hu, Ht, Hw.
  split.
  { rewrite fmap_app. apply NoDup_app. split; [exact Hu|]. split.
    - intros x Hx Hx'. cbn in Hx'. apply list_elem_of_singleton in Hx'.
      subst x. exact (Hex Hx).
    - cbn. apply NoDup_singleton. }
  split.
  { apply Forall_app. split; [exact Ht|]. apply Forall_singleton. exact Hnew. }
  apply Forall_app. split; [exact Hw|]. apply Forall_singleton.
  unfold out_of. rewrite (to_out_dump new_id (model_dump item) item);
    [eexists; reflexivity | intros k _; reflexivity].
Qed.

Lemma create_keeps_store_consistent_witness :
  unique_ids Shop.two_items /\ twelve_byte_ids Shop.two_items /\
  well_formed Shop.two_items /\ ObjectId.wf Shop.oid3 /\
  unique_ids (snd (request (create_furniture Shop.table Shop.oid3)
                     Shop.two_items)) /\
  twelve_byte_ids (snd (request (create_furniture Shop.table Shop.oid3)
                          Shop.two_items)) /\
  well_formed (snd (request (create_furniture Shop.table Shop.oid3)
                      Shop.two_items)).
Proof.
  assert (Hu : unique_ids Shop.two_items) by by_computation.
  assert (Ht : twelve_byte_ids Shop.two_items) by by_computation.
  assert (Hw : well_formed Shop.two_items) by by_computation.
  assert (Hn : ObjectId.wf Shop.oid3) by reflexivity.
  split; [exact Hu|]. split; [exact Ht|]. split; [exact Hw|].
  split; [exact Hn|].
  exact (create_keeps_store_consistent Shop.two_items Shop.table Shop.oid3
           Hu Ht Hw Hn).
Defined.

(** X16: a posted record shows in the list.  On a store that answers and
    holds furniture records, after a POST that the store accepted the
    unfiltered [GET /api/furniture] returns the records it returned before
    and the new one, and no other. *)
Theorem post_then_list (w : world) (item : FurnitureIn) (new_id : ObjectId.t) :
  live w -> well_formed w -> new_id ∉ (_id <$> stored w) ->
  exists outs,
    fst (request (list_furniture None None)
           (snd (request (create_furniture item new_id) w))) =
      {| status := 200; content := Payload outs |} /\
    forall o, In o outs <->
              In o (records w) \/
              o = {| record := item; id := ObjectId.to_str new_id |}.
Proof.
  intros (d & Hd & Hf) Hw Hfresh.
  rewrite (create_furniture_live w d item new_id Hd Hf Hfresh). cbn [snd].
  set (docs := Pymongo.collection d "furniture").
  set (w1 := {| db := Some (Pymongo.with_collection d "furniture"
                              (docs ++ [{| _id := new_id;
                                           fields := model_dump item |}]));
                environ := environ w;
                trace := trace w ++ [Pymongo.InsertOne "furniture"] |}).
  assert (Hst : stored w = docs) by (unfold stored; rewrite Hd; reflexivity).
  assert (Hst1 : stored w1 =
                 docs ++ [{| _id := new_id; fields := model_dump item |}])
    by apply stored_with_collection.
  assert (Hnew : out_of {| _id := new_id; fields := model_dump item |} =
                 Some {| record := item; id := ObjectId.to_str new_id |}).
  { unfold out_of. rewrite (to_out_dump new_id (model_dump item) item);
      [reflexivity | intros k _; reflexivity]. }
  assert (Hl1 : live w1) by (eexists; split; [reflexivity | exact Hf]).
  assert (Hw1 : well_formed w1).
  { unfold well_formed in *. rewrite Hst1. rewrite Hst in Hw.
    apply Forall_app. split; [exact Hw|]. apply Forall_singleton.
    rewrite Hnew. eexists; reflexivity. }
  eexists. split.
  { rewrite (list_furniture_live w1 None None Hl1 Hw1 I). reflexivity. }
  intros o. cbn [category_selects q_selects andb].
  rewrite filter_In. unfold records. rewrite Hst1, Hst, omap_app.
  cbn [omap list_omap]. rewrite Hnew. rewrite in_app_iff. cbn [In].
  split.
  - intros [[Ho | [Ho | []]] _]; [left; exact Ho | right; symmetry; exact Ho].
  - intros [Ho | Ho]; (split; [|reflexivity]); [left; exact Ho | right; left; symmetry; exact Ho].
Qed.

Lemma post_then_list_witness :
  live Shop.two_items /\ well_formed Shop.two_items /\
  (Shop.oid3 ∉ (_id <$> stored Shop.two_items)) /\
  exists outs,
    fst (request (list_furniture None None)
           (snd (request (create_furniture Shop.table Shop.oid3)
                   Shop.two_items))) =
      {| status := 200; content := Payload outs |} /\
    forall o, In o outs <->
              In o (records Shop.two_items) \/
              o = {| record := Shop.table; id := ObjectId.to_str Shop.oid3 |}.
Proof.
  assert (Hl : live Shop.two_items) by shop_live.
  assert (Hw : well_formed Shop.two_items) by by_computation.
  assert (Hf : Shop.oid3 ∉ (_id <$> stored Shop.two_items)) by by_computation.
  split; [exact Hl|]. split; [exact Hw|]. split; [exact Hf|].
  exact (post_then_list Shop.two_items Shop.table Shop.oid3 Hl Hw Hf).
Defined.

(** X17: a served record depends on the identifier and the nine record
    fields only: two documents that agree on them are served alike,
    whatever other fields (an [updated_at], say) either holds. *)
Theorem served_record_fields (d1 d2 : document) :
  _id d1 = _id d2 ->
  (forall k, In k record_keys -> fields d1 !! k = fields d2 !! k) ->
  to_out d1 = to_out d2.
Proof.
  intros Hid Hk. unfold to_out, get. rewrite Hid.
  repeat (rewrite bool_decide_false by discriminate).
  rewrite !Hk by (unfold record_keys; cbn [In]; tauto).
  reflexivity.
Qed.

Lemma served_record_fields_witness :
  _id Shop.sofa_doc = _id Scenes.tagged_sofa_doc /\
  (forall k, In k record_keys ->
             fields Shop.sofa_doc !! k = fields Scenes.tagged_sofa_doc !! k) /\
  to_out Shop.sofa_doc = to_out Scenes.tagged_sofa_doc.
Proof.
  assert (Hid : _id Shop.sofa_doc = _id Scenes.tagged_sofa_doc) by reflexivity.
  assert (Hk : forall k, In k record_keys ->
                 fields Shop.sofa_doc !! k = fields Scenes.tagged_sofa_doc !! k).
  { intros k Hin. unfold record_keys in Hin. cbn [In] in Hin.
    repeat (destruct Hin as [<- | Hin]; [vm_compute; reflexivity|]).
    destruct Hin. }
  split; [exact Hid|]. split; [exact Hk|].
  exact (served_record_fields Shop.sofa_doc Scenes.tagged_sofa_doc Hid Hk).
Defined.

(** X18: the answers of POST, of the list and of GET by id.  POST answers
    200 with the generated identifier or 500; the list answers 200 or 500;
    GET by id answers 200, 404 "Item not found" or 500.  Every error
    carries a detail text: no exception leaves these handlers, whatever
    the state and the arguments. *)
Theorem read_and_create_answers (w : world) (item : FurnitureIn)
    (new_id : ObjectId.t) (c q : option string) (item_id : string) :
  (fst (request (create_furniture item new_id) w) =
     {| status := 200; content := Payload (ObjectId.to_str new_id) |} \/
   exists msg, fst (request (create_furniture item new_id) w) =
                 {| status := 500; content := Detail msg |}) /\
  ((exists outs, fst (request (list_furniture c q) w) =
                   {| status := 200; content := Payload outs |}) \/
   exists msg, fst (request (list_furniture c q) w) =
                 {| status := 500; content := Detail msg |}) /\
  ((exists o, fst (request (get_furniture item_id) w) =
                {| status := 200; content := Payload o |}) \/
   fst (request (get_furniture item_id) w) =
     {| status := 404; content := Detail "Item not found" |} \/
   exists msg, fst (request (get_furniture item_id) w) =
                 {| status := 500; content := Detail msg |}).
Proof.
  split; [|split].
  - rewrite create_furniture_cases.
    destruct (db w) as [d|]; [|right; eexists; reflexivity].
    destruct (Pymongo.fault d); [right; eexists; reflexivity|].
    destruct (existsb (Pymongo.has_id new_id) (Pymongo.collection d "furniture"));
      [right; eexists; reflexivity | left; reflexivity].
  - unfold list_furniture. apply try_as_500_answers.
  - rewrite get_furniture_cases.
    destruct (ObjectId.parse item_id) as [o|];
      [|right; right; eexists; reflexivity].
    destruct (db w) as [d|]; [|right; right; eexists; reflexivity].
    cbn [fst]. destruct (Pymongo.fault d); [right; right; eexists; reflexivity|].
    destruct (List.filter (Pymongo.has_id o) (Pymongo.collection d "furniture"))
      as [|doc rest]; [right; left; reflexivity|].
    destruct (out_of doc);
      [left; eexists; reflexivity | right; right; eexists; reflexivity].
Qed.

(** X19: POST stores one document or nothing: either it answers 200 and
    the stored documents are those from before followed by one new
    document, which holds the dump of the body under the generated
    identifier, or it answers 500 and the database is as it was. *)
Theorem post_adds_one_or_nothing (w : world) (item : FurnitureIn)
    (new_id : ObjectId.t) :
  (status (fst (request (create_furniture item new_id) w)) = 200%Z /\
   stored (snd (request (create_furniture item new_id) w)) =
     stored w ++ [{| _id := new_id; fields := model_dump item |}]) \/
  (status (fst (request (create_furniture item new_id) w)) = 500%Z /\
   db (snd (request (create_furniture item new_id) w)) = db w).
Proof.
  rewrite create_furniture_cases.
  destruct (db w) as [d|] eqn:Hd; [|right; split; [reflexivity | cbn; exact Hd]].
  destruct (Pymongo.fault d); [right; split; [reflexivity | cbn; exact Hd]|].
  destruct (existsb (Pymongo.has_id new_id) (Pymongo.collection d "furniture"));
    [right; split; [reflexivity | cbn; exact Hd]|].
  left. split; [reflexivity|]. cbn [snd].
  rewrite stored_with_collection. unfold stored. rewrite Hd. reflexivity.
Qed.
